(** * F1 calendar proxy: a shallow embedding of [f1-site/server.js]

    The server is an Express application with five data routes.  Each
    handler validates the [:year] path parameter, fetches one document
    from the Ergast API (the calendar route optionally a second one from
    OpenF1), reshapes the parsed JSON and answers with [res.json].

    The embedding follows the source line by line:
    - JavaScript values are an inductive type with [undefined] and
      [null] kept apart; objects are association lists in insertion
      order, arrays are lists;
    - a property read [x.k] is a function into an error monad, because
      reading a property of [undefined] or [null] throws a [TypeError];
    - a handler is a finite tree of effects ([fetch], [console.warn],
      [console.error]) ending in the response it sends; [run] executes
      such a tree against an arbitrary upstream and records the trace.

    Strings are byte strings in UTF-8, as the literals of this file are.
    Numbers are integers: the handlers only copy numbers and test them
    for truthiness, and the only numbers they create are array lengths,
    years and HTTP status codes. *)

From Stdlib Require Import ZArith List String Ascii Bool Lia.
From Stdlib Require Import DecimalString.
Import ListNotations.
Local Open Scope string_scope.
Local Open Scope Z_scope.

(** ** JavaScript values *)

#[local] Unset Elimination Schemes.
Inductive value : Type :=
| VUndef
| VNull
| VBool (b : bool)
| VNum (n : Z)
| VStr (s : string)
| VArr (items : list value)
| VObj (fields : list (string * value)).
#[local] Set Elimination Schemes.

(** Values [JSON.parse] can return: no [undefined] anywhere. *)
Fixpoint is_json (v : value) : bool :=
  match v with
  | VUndef => false
  | VNull | VBool _ | VNum _ | VStr _ => true
  | VArr items => forallb is_json items
  | VObj fields => forallb (fun kv => is_json (snd kv)) fields
  end.

(** [ToBoolean]: the falsy values are [undefined], [null], [false], [0]
    and the empty string. *)
Definition truthy (v : value) : bool :=
  match v with
  | VUndef | VNull => false
  | VBool b => b
  | VNum n => negb (n =? 0)
  | VStr EmptyString => false
  | VStr (String _ _) => true
  | VArr _ | VObj _ => true
  end.

(** [a || b] *)
Definition js_or (a b : value) : value := if truthy a then a else b.

Definition nullish (v : value) : bool :=
  match v with
  | VUndef | VNull => true
  | _ => false
  end.

(** Own property of an object; an object literal or a parsed document
    has each key once. *)
Fixpoint lookup (k : string) (fields : list (string * value)) : option value :=
  match fields with
  | [] => None
  | (k', v) :: rest => if (k =? k')%string then Some v else lookup k rest
  end.

(** ** Exceptions *)

(** A thrown [Error]; the handlers read nothing of it but [message]. *)
Record error : Type := Err { message : string }.

Inductive result (A : Type) : Type :=
| Ok (a : A)
| Throw (e : error).
Arguments Ok {A} a.
Arguments Throw {A} e.

Definition bind {A B} (r : result A) (f : A -> result B) : result B :=
  match r with
  | Ok a => f a
  | Throw e => Throw e
  end.

Notation "x <- r ;; k" := (bind r (fun x => k))
  (at level 61, r at next level, right associativity).

(** Evaluation of [f] on the elements from left to right, stopping at the
    first exception, as [Array.prototype.map] does with a callback that
    throws. *)
Fixpoint mapM {A B} (f : A -> result B) (l : list A) : result (list B) :=
  match l with
  | [] => Ok []
  | a :: rest => b <- f a ;; bs <- mapM f rest ;; Ok (b :: bs)
  end.

Definition type_name (v : value) : string :=
  match v with
  | VNull => "null"
  | _ => "undefined"
  end.

(** The message V8 gives to the [TypeError] of a property read on
    [undefined] or [null].  No result below depends on its text. *)
Definition cannot_read (v : value) (k : string) : error :=
  Err ("Cannot read properties of " ++ type_name v ++ " (reading '" ++ k ++ "')").

Definition string_of_nat (n : nat) : string :=
  NilZero.string_of_uint (Nat.to_uint n).

Definition string_of_Z (z : Z) : string :=
  NilZero.string_of_int (Z.to_int z).

(** Number of UTF-16 code units of a string held in UTF-8: one for each
    byte that starts a character, and one more for a four-byte
    character. *)
Fixpoint utf16_length (s : string) : nat :=
  match s with
  | EmptyString => 0%nat
  | String c rest =>
      let b := nat_of_ascii c in
      ((if (b <? 128) || (192 <=? b) then 1 else 0)
       + (if 240 <=? b then 1 else 0)
       + utf16_length rest)%nat
  end.

(** [x.k] for a property name [k] that is not an array index and not a
    member inherited from a prototype; the handlers read only such
    names, apart from [map] ([js_map]) and the index [0]
    ([get_index]). *)
Definition get (v : value) (k : string) : result value :=
  match v with
  | VUndef | VNull => Throw (cannot_read v k)
  | VObj fields =>
      Ok (match lookup k fields with Some x => x | None => VUndef end)
  | VArr items =>
      Ok (if (k =? "length")%string then VNum (Z.of_nat (List.length items)) else VUndef)
  | VStr s =>
      Ok (if (k =? "length")%string then VNum (Z.of_nat (utf16_length s)) else VUndef)
  | VBool _ | VNum _ => Ok VUndef
  end.

(** [x?.k] *)
Definition get_opt (v : value) (k : string) : result value :=
  if nullish v then Ok VUndef else get v k.

(** The bytes of the first character of a string. *)
Fixpoint continuation_bytes (s : string) : string :=
  match s with
  | EmptyString => EmptyString
  | String c rest =>
      let b := nat_of_ascii c in
      if ((128 <=? b) && (b <? 192))%nat
      then String c (continuation_bytes rest)
      else EmptyString
  end.

(** [x[i]].  On a string the source gets the code unit at [i]; only
    [i = 0] is read, and it is given here as the whole first character
    (for a character outside the basic plane JavaScript yields its high
    surrogate alone, which no UTF-8 string holds). *)
Definition get_index (v : value) (i : nat) : result value :=
  match v with
  | VUndef | VNull => Throw (cannot_read v (string_of_nat i))
  | VArr items => Ok (nth i items VUndef)
  | VObj fields =>
      Ok (match lookup (string_of_nat i) fields with Some x => x | None => VUndef end)
  | VStr s =>
      Ok (match i, s with
          | O, String c rest => VStr (String c (continuation_bytes rest))
          | _, _ => VUndef
          end)
  | VBool _ | VNum _ => Ok VUndef
  end.

(** [x.map(f)], with [expr] the source text of [x] for the message.
    Only an array has a callable [map]: JSON holds no functions. *)
Definition js_map (expr : string) (v : value) (f : value -> result value)
  : result value :=
  match v with
  | VUndef | VNull => Throw (cannot_read v "map")
  | VArr items => items' <- mapM f items ;; Ok (VArr items')
  | _ => Throw (Err (expr ++ ".map is not a function"))
  end.

(** What [JSON.parse (JSON.stringify v)] gives for the body handed to
    [res.json]: a property whose value is [undefined] is left out, an
    [undefined] array element becomes [null]. *)
Fixpoint on_wire (v : value) : value :=
  match v with
  | VArr items =>
      VArr (map (fun x => match x with VUndef => VNull | _ => on_wire x end) items)
  | VObj fields =>
      VObj ((fix go (l : list (string * value)) : list (string * value) :=
               match l with
               | [] => []
               | (k, VUndef) :: rest => go rest
               | (k, x) :: rest => (k, on_wire x) :: go rest
               end) fields)
  | _ => v
  end.

(** ** [parseInt] and the year pattern *)

Definition digit_of (c : ascii) : option Z :=
  let b := nat_of_ascii c in
  if ((48 <=? b) && (b <=? 57))%nat then Some (Z.of_nat b - 48) else None.

(** [StrWhiteSpaceChar] of one byte: TAB, LF, VT, FF, CR and space. *)
Definition space1 (a : ascii) : bool :=
  let x := nat_of_ascii a in
  (((9 <=? x) && (x <=? 13)) || (x =? 32))%nat.

(** U+00A0. *)
Definition space2 (a b : ascii) : bool :=
  ((nat_of_ascii a =? 194) && (nat_of_ascii b =? 160))%nat.

(** U+1680, U+2000 to U+200A, U+2028, U+2029, U+202F, U+205F, U+3000 and
    U+FEFF. *)
Definition space3 (a b c : ascii) : bool :=
  let x := nat_of_ascii a in
  let y := nat_of_ascii b in
  let z := nat_of_ascii c in
  (((x =? 225) && (y =? 154) && (z =? 128))
   || ((x =? 226) && (y =? 128)
       && (((128 <=? z) && (z <=? 138)) || (z =? 168) || (z =? 169) || (z =? 175)))
   || ((x =? 226) && (y =? 129) && (z =? 159))
   || ((x =? 227) && (y =? 128) && (z =? 128))
   || ((x =? 239) && (y =? 187) && (z =? 191)))%nat.

Fixpoint trim_start (s : string) : string :=
  match s with
  | EmptyString => s
  | String a r1 =>
      if space1 a then trim_start r1
      else
        match r1 with
        | EmptyString => s
        | String b r2 =>
            if space2 a b then trim_start r2
            else
              match r2 with
              | EmptyString => s
              | String c r3 => if space3 a b c then trim_start r3 else s
              end
        end
  end.

(** The value of the longest prefix of decimal digits, [None] when there
    is no digit at the front. *)
Fixpoint leading_digits (s : string) (acc : option Z) : option Z :=
  match s with
  | EmptyString => acc
  | String c rest =>
      match digit_of c with
      | Some d =>
          leading_digits rest
            (Some (10 * (match acc with Some n => n | None => 0 end) + d))
      | None => acc
      end
  end.

(** [parseInt(s, 10)]; [None] is [NaN].  The integer is exact, where
    JavaScript rounds to a double beyond 2^53; every use below is on a
    string of four digits. *)
Definition parseInt (s : string) : option Z :=
  match trim_start s with
  | String "-" rest => option_map Z.opp (leading_digits rest None)
  | String "+" rest => leading_digits rest None
  | t => leading_digits t None
  end.

Definition is_digit (c : ascii) : bool :=
  match digit_of c with Some _ => true | None => false end.

(** [/^\d{4}$/.test(s)] *)
Definition test_four_digits (s : string) : bool :=
  match s with
  | String a (String b (String c (String d EmptyString))) =>
      is_digit a && is_digit b && is_digit c && is_digit d
  | _ => false
  end.

(** Comparisons of a possibly-[NaN] number with an integer: each is
    false on [NaN]. *)
Definition isNaN (n : option Z) : bool :=
  match n with None => true | Some _ => false end.

Definition num_lt (n : option Z) (m : Z) : bool :=
  match n with Some x => x <? m | None => false end.

Definition num_gt (n : option Z) (m : Z) : bool :=
  match n with Some x => x >? m | None => false end.

Definition num_ge (n : option Z) (m : Z) : bool :=
  match n with Some x => x >=? m | None => false end.

(** The number inside a template literal. *)
Definition string_of_number (n : option Z) : string :=
  match n with Some x => string_of_Z x | None => "NaN" end.

(** ** Constants and [validateYear] *)

Definition OPENF1_MIN_YEAR : Z := 2023.
Definition F1_MIN_YEAR : Z := 1950.

Definition double_quote : string := String (ascii_of_nat 34) EmptyString.

(** [{ valid: true }] or [{ valid: false, error }] *)
Inductive validation : Type :=
| Valid
| Invalid (error : string).

Definition valid (v : validation) : bool :=
  match v with Valid => true | Invalid _ => false end.

(** ** Effects of a handler *)

(** What [await fetch(url)] gives: a rejection, or a response with its
    status and what [await response.json()] would give. *)
Inductive fetch_result : Type :=
| Rejected (e : error)
| Responded (status : Z) (json : result value).

(** [response.ok] *)
Definition ok (status : Z) : bool := (200 <=? status) && (status <=? 299).

Inductive event : Type :=
| Fetched (url : string) (headers : list (string * string))
| Warned (text detail : string)
| Reported (text : string) (e : error).

(** A handler after its [req] is fixed: the effects it performs and the
    status and body it ends with. *)
Inductive handler : Type :=
| Send (status : Z) (body : value)
| Fetch (url : string) (headers : list (string * string))
    (k : fetch_result -> handler)
| ConsoleWarn (text detail : string) (k : handler)
| ConsoleError (text : string) (e : error) (k : handler).

Record response : Type := Reply { status : Z; body : value }.

(** Running a handler against an upstream that answers each URL. *)
Fixpoint run (upstream : string -> fetch_result) (h : handler)
  : list event * response :=
  match h with
  | Send st b => ([], Reply st b)
  | Fetch url headers k =>
      let (t, r) := run upstream (k (upstream url)) in
      (Fetched url headers :: t, r)
  | ConsoleWarn text detail k =>
      let (t, r) := run upstream k in (Warned text detail :: t, r)
  | ConsoleError text e k =>
      let (t, r) := run upstream k in (Reported text e :: t, r)
  end.

(** [try { ... } catch (error) { ... }] around a computation that does
    not await. *)
Definition attempt {A} (r : result A) (k : A -> handler)
  (catch : error -> handler) : handler :=
  match r with
  | Ok a => k a
  | Throw e => catch e
  end.

(** [x.a.b.c] *)
Fixpoint path (v : value) (ks : list string) : result value :=
  match ks with
  | [] => Ok v
  | k :: rest => x <- get v k ;; path x rest
  end.

(** Field of a body, [undefined] when it is not there. *)
Definition field (v : value) (k : string) : value :=
  match v with
  | VObj fields => match lookup k fields with Some x => x | None => VUndef end
  | _ => VUndef
  end.

(** The key is an own property of the object. *)
Definition has_key (v : value) (k : string) : bool :=
  match v with
  | VObj fields => match lookup k fields with Some _ => true | None => false end
  | _ => false
  end.

(** [encodeURIComponent]: letters, digits and [-_.!~*'()] stay, every
    other byte of the UTF-8 form becomes [%XX]. *)
Definition hex_digit (n : nat) : ascii :=
  ascii_of_nat (if (n <? 10)%nat then 48 + n else 55 + n).

Definition unreserved (c : ascii) : bool :=
  let b := nat_of_ascii c in
  (((48 <=? b) && (b <=? 57)) || ((65 <=? b) && (b <=? 90))
   || ((97 <=? b) && (b <=? 122))
   || (b =? 45) || (b =? 95) || (b =? 46) || (b =? 33) || (b =? 126)
   || (b =? 42) || (b =? 39) || (b =? 40) || (b =? 41))%nat.

Fixpoint encodeURIComponent (s : string) : string :=
  match s with
  | EmptyString => EmptyString
  | String c rest =>
      if unreserved c then String c (encodeURIComponent rest)
      else
        let b := nat_of_ascii c in
        String "%" (String (hex_digit (b / 16)) (String (hex_digit (b mod 16))
          (encodeURIComponent rest)))
  end.

(** ** The shaping callbacks *)

(** The callback of [Races.map], lines 84 to 109. *)
Definition shape_race (race : value) : result value :=
  season <- get race "season" ;;
  round <- get race "round" ;;
  url <- get race "url" ;;
  raceName <- get race "raceName" ;;
  date <- get race "date" ;;
  time <- get race "time" ;;
  circuitId <- path race ["Circuit"; "circuitId"] ;;
  circuitUrl <- path race ["Circuit"; "url"] ;;
  circuitName <- path race ["Circuit"; "circuitName"] ;;
  lat <- path race ["Circuit"; "Location"; "lat"] ;;
  long <- path race ["Circuit"; "Location"; "long"] ;;
  locality <- path race ["Circuit"; "Location"; "locality"] ;;
  country <- path race ["Circuit"; "Location"; "country"] ;;
  firstPractice <- get race "FirstPractice" ;;
  secondPractice <- get race "SecondPractice" ;;
  thirdPractice <- get race "ThirdPractice" ;;
  qualifying <- get race "Qualifying" ;;
  sprint <- get race "Sprint" ;;
  Ok (VObj
    [ ("season", season);
      ("round", round);
      ("url", url);
      ("raceName", raceName);
      ("date", date);
      ("time", js_or time VNull);
      ("circuit", VObj
        [ ("circuitId", circuitId);
          ("url", circuitUrl);
          ("circuitName", circuitName);
          ("location", VObj
            [ ("lat", lat);
              ("long", long);
              ("locality", locality);
              ("country", country) ]) ]);
      ("sessions", VObj
        [ ("firstPractice", js_or firstPractice VNull);
          ("secondPractice", js_or secondPractice VNull);
          ("thirdPractice", js_or thirdPractice VNull);
          ("qualifying", js_or qualifying VNull);
          ("sprint", js_or sprint VNull) ]) ]).

(** Lines 178 to 187. *)
Definition shape_driver (driver : value) : result value :=
  driverId <- get driver "driverId" ;;
  permanentNumber <- get driver "permanentNumber" ;;
  code <- get driver "code" ;;
  url <- get driver "url" ;;
  givenName <- get driver "givenName" ;;
  familyName <- get driver "familyName" ;;
  dateOfBirth <- get driver "dateOfBirth" ;;
  nationality <- get driver "nationality" ;;
  Ok (VObj
    [ ("driverId", driverId);
      ("permanentNumber", js_or permanentNumber VNull);
      ("code", js_or code VNull);
      ("url", url);
      ("givenName", givenName);
      ("familyName", familyName);
      ("dateOfBirth", dateOfBirth);
      ("nationality", nationality) ]).

(** Lines 228 to 233. *)
Definition shape_constructor (c : value) : result value :=
  constructorId <- get c "constructorId" ;;
  url <- get c "url" ;;
  name <- get c "name" ;;
  nationality <- get c "nationality" ;;
  Ok (VObj
    [ ("constructorId", constructorId);
      ("url", url);
      ("name", name);
      ("nationality", nationality) ]).

(** Lines 299 to 302. *)
Definition shape_team (c : value) : result value :=
  constructorId <- get c "constructorId" ;;
  name <- get c "name" ;;
  Ok (VObj [ ("constructorId", constructorId); ("name", name) ]).

(** Lines 287 to 303. *)
Definition shape_driver_standing (s : value) : result value :=
  position <- get s "position" ;;
  positionText <- get s "positionText" ;;
  points <- get s "points" ;;
  wins <- get s "wins" ;;
  driverId <- path s ["Driver"; "driverId"] ;;
  code <- path s ["Driver"; "code"] ;;
  givenName <- path s ["Driver"; "givenName"] ;;
  familyName <- path s ["Driver"; "familyName"] ;;
  nationality <- path s ["Driver"; "nationality"] ;;
  teams <- get s "Constructors" ;;
  constructors <- js_map "s.Constructors" teams shape_team ;;
  Ok (VObj
    [ ("position", position);
      ("positionText", positionText);
      ("points", points);
      ("wins", wins);
      ("driver", VObj
        [ ("driverId", driverId);
          ("code", code);
          ("givenName", givenName);
          ("familyName", familyName);
          ("nationality", nationality) ]);
      ("constructors", constructors) ]).

(** Lines 352 to 362. *)
Definition shape_constructor_standing (s : value) : result value :=
  position <- get s "position" ;;
  positionText <- get s "positionText" ;;
  points <- get s "points" ;;
  wins <- get s "wins" ;;
  constructorId <- path s ["Constructor"; "constructorId"] ;;
  name <- path s ["Constructor"; "name"] ;;
  nationality <- path s ["Constructor"; "nationality"] ;;
  Ok (VObj
    [ ("position", position);
      ("positionText", positionText);
      ("points", points);
      ("wins", wins);
      ("constructor", VObj
        [ ("constructorId", constructorId);
          ("name", name);
          ("nationality", nationality) ]) ]).

(** The body of [res.json] in the two standings routes, lines 284 to 304
    and 349 to 363, for the callback and the key of each. *)
Definition standings_body (key : string) (shape : value -> result value)
  (standingsList : value) : result value :=
  season <- get standingsList "season" ;;
  round <- get standingsList "round" ;;
  entries <- get standingsList key ;;
  standings <- js_map ("standingsList." ++ key) entries shape ;;
  Ok (VObj [ ("season", season); ("round", round); ("standings", standings) ]).

(** [data.MRData?.StandingsTable?.StandingsLists], lines 274 and 339. *)
Definition standings_lists (data : value) : result value :=
  mrData <- get data "MRData" ;;
  table <- get_opt mrData "StandingsTable" ;;
  get_opt table "StandingsLists".

(** [x === 0] *)
Definition is_zero (v : value) : bool :=
  match v with
  | VNum n => n =? 0
  | _ => false
  end.

(** ** The server *)

Section Server.

(** [new Date().getFullYear()] at the time the module is loaded. *)
Variable startYear : Z.

Definition F1_MAX_YEAR : Z := startYear + 1.

Definition validateYear (year : string) : validation :=
  if (year =? "current")%string then Valid
  else
    let yearNum := parseInt year in
    if isNaN yearNum || negb (test_four_digits year) then
      Invalid ("Ano inválido. Use um ano de 4 dígitos ou "
               ++ double_quote ++ "current" ++ double_quote ++ ".")
    else if num_lt yearNum F1_MIN_YEAR || num_gt yearNum F1_MAX_YEAR then
      Invalid ("Ano deve estar entre " ++ string_of_Z F1_MIN_YEAR
               ++ " e " ++ string_of_Z F1_MAX_YEAR ++ ".")
    else Valid.

(** The [catch] block of every route: the text logged differs, the
    answer does not. *)
Definition internal_error (text : string) (e : error) : handler :=
  ConsoleError text e
    (Send 500 (VObj [ ("error", VStr "Erro interno do servidor");
                      ("message", VStr (message e)) ])).

(** The answer to an upstream response that is not [ok]. *)
Definition upstream_error (text : string) (st : Z) : handler :=
  Send st (VObj [ ("error", VStr text); ("status", VNum st) ]).

(** *** [GET /api/calendar/:year] *)

Definition ergast_calendar_url (year : string) : string :=
  "https://ergast.com/api/f1/" ++ encodeURIComponent year ++ ".json".

Definition openf1_url (requestedYear : option Z) : string :=
  "https://api.openf1.org/v1/meetings?year=" ++ string_of_number requestedYear.

(** Lines 75 to 109: the container check and the shaping. *)
Inductive shaped : Type :=
| NoRaces
| Races (mrData races : value).

Definition shape_calendar (ergastData : value) : result shaped :=
  mrData <- get ergastData "MRData" ;;
  raceTable <- get mrData "RaceTable" ;;
  absent <- (if truthy raceTable
             then container <- path mrData ["RaceTable"; "Races"] ;;
                  Ok (negb (truthy container))
             else Ok true) ;;
  if absent : bool then Ok NoRaces
  else
    container <- path mrData ["RaceTable"; "Races"] ;;
    races <- js_map "mrData.RaceTable.Races" container shape_race ;;
    Ok (Races mrData races).

(** Line 114; [None] is the [NaN] of [parseInt]. *)
Definition requested_year (now : Z) (year : string) : option Z :=
  if (year =? "current")%string then Some now else parseInt year.

Definition calendar_catch : error -> handler :=
  internal_error "Erro ao processar requisição:".

(** Lines 132 to 143. *)
Definition calendar_answer (year : string) (mrData races : value)
  (requestedYear : option Z) (openf1Data : value) : handler :=
  attempt
    (season <- path mrData ["RaceTable"; "season"] ;;
     totalRaces <- get races "length" ;;
     Ok (VObj
       [ ("calendar", VObj
           [ ("requestedYear", js_or season (VStr year));
             ("totalRaces", totalRaces);
             ("races", races) ]);
         ("openf1Data", openf1Data);
         ("sources", VObj
           [ ("ergast", VStr (ergast_calendar_url year));
             ("openf1",
               if num_ge requestedYear OPENF1_MIN_YEAR
               then VStr (openf1_url requestedYear)
               else VNull) ]) ]))
    (fun body => Send 200 body)
    calendar_catch.

(** Lines 112 to 130: the optional fetch, with its own [try]. *)
Definition calendar_openf1 (requestedYear : option Z) (k : value -> handler)
  : handler :=
  let unavailable (e : error) :=
    ConsoleWarn "OpenF1 API não disponível:" (message e) (k VNull) in
  if num_ge requestedYear OPENF1_MIN_YEAR then
    Fetch (openf1_url requestedYear) [ ("Accept", "application/json") ]
      (fun openf1Response =>
         match openf1Response with
         | Rejected e => unavailable e
         | Responded st json =>
             if ok st then
               match json with
               | Ok openf1Data => k openf1Data
               | Throw e => unavailable e
               end
             else k VNull
         end)
  else k VNull.

Definition calendar (now : Z) (year : string) : handler :=
  match validateYear year with
  | Invalid e => Send 400 (VObj [ ("error", VStr e) ])
  | Valid =>
      Fetch (ergast_calendar_url year) []
        (fun ergastResponse =>
           match ergastResponse with
           | Rejected e => calendar_catch e
           | Responded st json =>
               if negb (ok st) then
                 upstream_error "Erro ao buscar dados da Ergast API" st
               else
                 attempt (ergastData <- json ;; shape_calendar ergastData)
                   (fun s =>
                      match s with
                      | NoRaces =>
                          Send 404
                            (VObj [ ("error", VStr "Nenhuma corrida encontrada para este ano");
                                    ("year", VStr year) ])
                      | Races mrData races =>
                          let requestedYear := requested_year now year in
                          calendar_openf1 requestedYear
                            (calendar_answer year mrData races requestedYear)
                      end)
                   calendar_catch
           end)
  end.

(** *** The four routes with one upstream

    They share everything but the URL, two texts and what is done with
    the parsed document: validation, one [fetch], the answer to a
    response that is not [ok], and the [catch] block. *)

Definition ergast_url (year resource : string) : string :=
  "https://ergast.com/api/f1/" ++ encodeURIComponent year ++ "/" ++ resource
  ++ ".json".

Definition single_source (year resource upstreamText catchText : string)
  (answer : value -> result response) : handler :=
  match validateYear year with
  | Invalid e => Send 400 (VObj [ ("error", VStr e) ])
  | Valid =>
      Fetch (ergast_url year resource) []
        (fun response =>
           match response with
           | Rejected e => internal_error catchText e
           | Responded st json =>
               if negb (ok st) then upstream_error upstreamText st
               else
                 attempt (data <- json ;; answer data)
                   (fun r => Send (status r) (body r))
                   (internal_error catchText)
           end)
  end.

(** Lines 177 to 193. *)
Definition drivers_answer (data : value) : result response :=
  container <- path data ["MRData"; "DriverTable"; "Drivers"] ;;
  drivers <- js_map "data.MRData.DriverTable.Drivers" container shape_driver ;;
  season <- path data ["MRData"; "DriverTable"; "season"] ;;
  totalDrivers <- get drivers "length" ;;
  Ok (Reply 200
        (VObj [ ("season", season);
                ("totalDrivers", totalDrivers);
                ("drivers", drivers) ])).

Definition drivers (year : string) : handler :=
  single_source year "drivers" "Erro ao buscar dados dos pilotos"
    "Erro ao buscar pilotos:" drivers_answer.

(** Lines 227 to 239. *)
Definition constructors_answer (data : value) : result response :=
  container <- path data ["MRData"; "ConstructorTable"; "Constructors"] ;;
  constructors <- js_map "data.MRData.ConstructorTable.Constructors" container
                    shape_constructor ;;
  season <- path data ["MRData"; "ConstructorTable"; "season"] ;;
  totalConstructors <- get constructors "length" ;;
  Ok (Reply 200
        (VObj [ ("season", season);
                ("totalConstructors", totalConstructors);
                ("constructors", constructors) ])).

Definition constructors (year : string) : handler :=
  single_source year "constructors" "Erro ao buscar dados das equipes"
    "Erro ao buscar equipes:" constructors_answer.

(** Lines 273 to 304, and 338 to 363 with the other key and callback. *)
Definition standings_answer (key : string) (shape : value -> result value)
  (data : value) : result response :=
  standingsLists <- standings_lists data ;;
  empty <- (if negb (truthy standingsLists) then Ok true
            else len <- get standingsLists "length" ;; Ok (is_zero len)) ;;
  if empty : bool then
    Ok (Reply 404
          (VObj [ ("error", VStr "Classificação não disponível para este ano") ]))
  else
    standingsList <- get_index standingsLists 0 ;;
    b <- standings_body key shape standingsList ;;
    Ok (Reply 200 b).

Definition driver_standings (year : string) : handler :=
  single_source year "driverStandings"
    "Erro ao buscar classificação de pilotos" "Erro ao buscar classificação:"
    (standings_answer "DriverStandings" shape_driver_standing).

Definition constructor_standings (year : string) : handler :=
  single_source year "constructorStandings"
    "Erro ao buscar classificação de construtores" "Erro ao buscar classificação:"
    (standings_answer "ConstructorStandings" shape_constructor_standing).

(** *** The routes together *)

Inductive route : Type :=
| Calendar
| Drivers
| Constructors
| DriverStandings
| ConstructorStandings.

(** [now] is [new Date().getFullYear()] while the request is handled;
    only the calendar route reads it. *)
Definition handle (r : route) (now : Z) (year : string) : handler :=
  match r with
  | Calendar => calendar now year
  | Drivers => drivers year
  | Constructors => constructors year
  | DriverStandings => driver_standings year
  | ConstructorStandings => constructor_standings year
  end.

(** The URL of the mandatory source of each route. *)
Definition mandatory_url (r : route) (year : string) : string :=
  match r with
  | Calendar => ergast_calendar_url year
  | Drivers => ergast_url year "drivers"
  | Constructors => ergast_url year "constructors"
  | DriverStandings => ergast_url year "driverStandings"
  | ConstructorStandings => ergast_url year "constructorStandings"
  end.

(** A request to OpenF1 in a trace. *)
Definition to_openf1 (e : event) : bool :=
  match e with
  | Fetched url _ => prefix "https://api.openf1.org/" url
  | _ => false
  end.

Definition optional_calls (trace : list event) : nat :=
  List.length (filter to_openf1 trace).

(** The optional fetch has failed: the request was rejected, the status
    is not 2xx, or the body does not parse. *)
Definition optional_failed (r : fetch_result) : bool :=
  match r with
  | Rejected _ => true
  | Responded st (Throw _) => true
  | Responded st (Ok _) => negb (ok st)
  end.

End Server.

(** ** The year rule as the specification words it *)

(** Place of a character in a string, counted from zero. *)
Fixpoint position (c : ascii) (s : string) : option Z :=
  match s with
  | EmptyString => None
  | String d rest =>
      if Ascii.eqb c d then Some 0 else option_map Z.succ (position c rest)
  end.

(** An ASCII digit and its value: its place among the ten digits. *)
Definition spec_digit (c : ascii) : option Z := position c "0123456789".

(** The integer of a token of exactly four ASCII digits; [None] for any
    other token. *)
Definition spec_year_value (token : string) : option Z :=
  match token with
  | String a (String b (String c (String d EmptyString))) =>
      match spec_digit a, spec_digit b, spec_digit c, spec_digit d with
      | Some x, Some y, Some z, Some w => Some (1000 * x + 100 * y + 10 * z + w)
      | _, _, _, _ => None
      end
  | _ => None
  end.

(** Rules (a) to (c): the sentinel, or four digits with a value between
    1950 and the calendar year plus one. *)
Definition spec_valid_year (calendarYear : Z) (token : string) : bool :=
  (token =? "current")%string
  || match spec_year_value token with
     | Some y => (1950 <=? y) && (y <=? calendarYear + 1)
     | None => false
     end.

(** ** Vocabulary of the statements *)

(** The record carries a [Circuit] with a [Location] inside: neither is
    missing or [null]. *)
Definition has_location (race : value) : bool :=
  negb (nullish race)
  && negb (nullish (field race "Circuit"))
  && negb (nullish (field (field race "Circuit") "Location")).

(** Splits a successful chain of reads into its steps. *)
Ltac split_reads H :=
  repeat match type of H with
         | bind ?r _ = Ok _ =>
             let E := fresh "E" in
             destruct r eqn:E; cbn [bind] in H; [|discriminate H]
         end.

(** The record [shape_race] builds when it does not throw. *)
Definition race_record (race : value) : value :=
  let circuit := field race "Circuit" in
  let location := field circuit "Location" in
  VObj
    [ ("season", field race "season");
      ("round", field race "round");
      ("url", field race "url");
      ("raceName", field race "raceName");
      ("date", field race "date");
      ("time", js_or (field race "time") VNull);
      ("circuit", VObj
        [ ("circuitId", field circuit "circuitId");
          ("url", field circuit "url");
          ("circuitName", field circuit "circuitName");
          ("location", VObj
            [ ("lat", field location "lat");
              ("long", field location "long");
              ("locality", field location "locality");
              ("country", field location "country") ]) ]);
      ("sessions", VObj
        [ ("firstPractice", js_or (field race "FirstPractice") VNull);
          ("secondPractice", js_or (field race "SecondPractice") VNull);
          ("thirdPractice", js_or (field race "ThirdPractice") VNull);
          ("qualifying", js_or (field race "Qualifying") VNull);
          ("sprint", js_or (field race "Sprint") VNull) ]) ].

(** The response a handler sends, and the effects before it. *)
Definition reply_of (upstream : string -> fetch_result) (h : handler) : response :=
  snd (run upstream h).

Definition trace_of (upstream : string -> fetch_result) (h : handler) : list event :=
  fst (run upstream h).

(** The key of the entries in a standings list, and their callback. *)
Definition standings_key (r : route) : string :=
  match r with
  | ConstructorStandings => "ConstructorStandings"
  | _ => "DriverStandings"
  end.

Definition standings_shape (r : route) : value -> result value :=
  match r with
  | ConstructorStandings => shape_constructor_standing
  | _ => shape_driver_standing
  end.

Definition standings_catch (e : error) : handler :=
  internal_error "Erro ao buscar classificação:" e.

(** The place each route expects its data at. *)
Definition container (r : route) (data : value) : result value :=
  match r with
  | Calendar => path data ["MRData"; "RaceTable"; "Races"]
  | Drivers => path data ["MRData"; "DriverTable"; "Drivers"]
  | Constructors => path data ["MRData"; "ConstructorTable"; "Constructors"]
  | DriverStandings | ConstructorStandings => standings_lists data
  end.

(** The keys of the list and of its count in the answer of the drivers
    and constructors routes. *)
Definition list_key (r : route) : string :=
  match r with
  | Constructors => "constructors"
  | _ => "drivers"
  end.

Definition count_key (r : route) : string :=
  match r with
  | Constructors => "totalConstructors"
  | _ => "totalDrivers"
  end.

(** The session fields of an upstream race and their keys in the shaped
    record. *)
Definition session_fields : list (string * string) :=
  [ ("FirstPractice", "firstPractice");
    ("SecondPractice", "secondPractice");
    ("ThirdPractice", "thirdPractice");
    ("Qualifying", "qualifying");
    ("Sprint", "sprint") ].

(** ** Sample documents and upstreams *)

(** A race as Ergast sends it, without a sprint. *)
Definition bahrain : value :=
  VObj
    [ ("season", VStr "2024");
      ("round", VStr "1");
      ("url", VStr "https://en.wikipedia.org/wiki/2024_Bahrain_Grand_Prix");
      ("raceName", VStr "Bahrain Grand Prix");
      ("Circuit", VObj
        [ ("circuitId", VStr "bahrain");
          ("url", VStr "http://en.wikipedia.org/wiki/Bahrain_International_Circuit");
          ("circuitName", VStr "Bahrain International Circuit");
          ("Location", VObj
            [ ("lat", VStr "26.0325");
              ("long", VStr "50.5106");
              ("locality", VStr "Sakhir");
              ("country", VStr "Bahrain") ]) ]);
      ("date", VStr "2024-03-02");
      ("time", VStr "15:00:00Z");
      ("FirstPractice", VObj [ ("date", VStr "2024-02-29"); ("time", VStr "11:30:00Z") ]);
      ("SecondPractice", VObj [ ("date", VStr "2024-02-29"); ("time", VStr "15:00:00Z") ]);
      ("ThirdPractice", VObj [ ("date", VStr "2024-03-01"); ("time", VStr "12:30:00Z") ]);
      ("Qualifying", VObj [ ("date", VStr "2024-03-01"); ("time", VStr "16:00:00Z") ]) ].

(** The same race with [false] sent for the first practice. *)
Definition bahrain_false_practice : value :=
  VObj
    [ ("season", VStr "2024");
      ("round", VStr "1");
      ("raceName", VStr "Bahrain Grand Prix");
      ("Circuit", VObj
        [ ("circuitId", VStr "bahrain");
          ("Location", VObj [ ("locality", VStr "Sakhir") ]) ]);
      ("date", VStr "2024-03-02");
      ("FirstPractice", VBool false) ].

(** A race whose circuit has no location. *)
Definition race_without_location : value :=
  VObj
    [ ("season", VStr "2024");
      ("round", VStr "2");
      ("raceName", VStr "Saudi Arabian Grand Prix");
      ("Circuit", VObj [ ("circuitId", VStr "jeddah") ]) ].

Definition calendar_document (season : string) (races : list value) : value :=
  VObj
    [ ("MRData", VObj
        [ ("RaceTable", VObj [ ("season", VStr season); ("Races", VArr races) ]) ]) ].

(** [{}]: a document without [MRData]. *)
Definition empty_document : value := VObj [].

Definition drivers_document (season : string) (drivers : list value) : value :=
  VObj
    [ ("MRData", VObj
        [ ("DriverTable", VObj [ ("season", VStr season); ("Drivers", VArr drivers) ]) ]) ].

Definition standings_document (lists : list value) : value :=
  VObj
    [ ("MRData", VObj
        [ ("StandingsTable", VObj [ ("StandingsLists", VArr lists) ]) ]) ].

Definition verstappen_first : value :=
  VObj
    [ ("position", VStr "1");
      ("positionText", VStr "1");
      ("points", VStr "454");
      ("wins", VStr "15");
      ("Driver", VObj
        [ ("driverId", VStr "max_verstappen");
          ("code", VStr "VER");
          ("givenName", VStr "Max");
          ("familyName", VStr "Verstappen");
          ("nationality", VStr "Dutch") ]);
      ("Constructors", VArr
        [ VObj [ ("constructorId", VStr "red_bull"); ("name", VStr "Red Bull") ] ]) ].

Definition standings_2022 : value :=
  VObj
    [ ("season", VStr "2022");
      ("round", VStr "22");
      ("DriverStandings", VArr [ verstappen_first ]) ].

Definition standings_other : value :=
  VObj
    [ ("season", VStr "1999");
      ("round", VStr "16");
      ("DriverStandings", VArr []) ].

(** An upstream where Ergast answers every request with [mandatory] and
    OpenF1 with [optional]. *)
Definition two_sources (mandatory optional : fetch_result) (url : string)
  : fetch_result :=
  if prefix "https://api.openf1.org/" url then optional else mandatory.

Definition internal_server_error : fetch_result :=
  Responded 500 (Ok (VObj [ ("detail", VStr "Internal Server Error") ])).

(** ** Vocabulary of the further properties *)

(** A [fetch] in a trace, and how many there are. *)
Definition is_fetch (e : event) : bool :=
  match e with
  | Fetched _ _ => true
  | _ => false
  end.

Definition fetches (trace : list event) : nat :=
  List.length (filter is_fetch trace).

(** The text each route hands to [console.error] in its [catch]. *)
Definition catch_text (r : route) : string :=
  match r with
  | Calendar => "Erro ao processar requisição:"
  | Drivers => "Erro ao buscar pilotos:"
  | Constructors => "Erro ao buscar equipes:"
  | DriverStandings | ConstructorStandings => "Erro ao buscar classificação:"
  end.

(** The body of every answer with status 500. *)
Definition internal_error_body (e : error) : value :=
  VObj [ ("error", VStr "Erro interno do servidor");
         ("message", VStr (message e)) ].

(** The ten digits. *)
Definition digits : list ascii := list_ascii_of_string "0123456789".

(** The value of four digits. *)
Definition value4 (a b c d : ascii) : Z :=
  match digit_of a, digit_of b, digit_of c, digit_of d with
  | Some x, Some y, Some z, Some w => 1000 * x + 100 * y + 10 * z + w
  | _, _, _, _ => 0
  end.

(** Every token of four digits worth 1950 or more is printed back from
    its value as it was written. *)
Definition prints_back : bool :=
  forallb (fun a => forallb (fun b => forallb (fun c => forallb (fun d =>
    implb (1950 <=? value4 a b c d)
      (string_of_Z (value4 a b c d)
       =? String a (String b (String c (String d EmptyString))))%string)
    digits) digits) digits) digits.

(** What the [try] around the optional fetch logs: a line for a
    rejected request and for a 2xx body that does not parse, nothing for
    a status outside 2xx. *)
Definition optional_log (r : fetch_result) : list event :=
  match r with
  | Rejected e => [ Warned "OpenF1 API não disponível:" (message e) ]
  | Responded st json =>
      if ok st then
        match json with
        | Ok _ => []
        | Throw e => [ Warned "OpenF1 API não disponível:" (message e) ]
        end
      else []
  end.

(** The status of a calendar answer to a parsed document, read off the
    document: 500 without [MRData], 404 without races, 500 for races
    that are not an array or have a record without location, 200
    otherwise. *)
Definition calendar_class (data : value) : Z :=
  if nullish data || nullish (field data "MRData") then 500
  else
    let raceTable := field (field data "MRData") "RaceTable" in
    if negb (truthy raceTable) || negb (truthy (field raceTable "Races")) then 404
    else
      match field raceTable "Races" with
      | VArr races => if forallb has_location races then 200 else 500
      | _ => 500
      end.

(** The callback of the drivers and of the constructors route, and the
    table each reads. *)
Definition item_shape (r : route) : value -> result value :=
  match r with
  | Constructors => shape_constructor
  | _ => shape_driver
  end.

Definition table_key (r : route) : string :=
  match r with
  | Constructors => "ConstructorTable"
  | _ => "DriverTable"
  end.

(** An array none of whose elements is [null]. *)
Definition all_records (c : result value) : bool :=
  match c with
  | Ok (VArr items) => forallb (fun x => negb (nullish x)) items
  | _ => false
  end.

(** An entry of a standings list that its callback can shape: a driver
    entry has its [Driver] and an array of [Constructors] without
    [null]; a constructor entry has its [Constructor]. *)
Definition entry_ok (r : route) (s : value) : bool :=
  match r with
  | ConstructorStandings =>
      negb (nullish s) && negb (nullish (field s "Constructor"))
  | _ =>
      negb (nullish s) && negb (nullish (field s "Driver"))
      && all_records (Ok (field s "Constructors"))
  end.

(** The status of a standings answer computed from the first list. *)
Definition standings_class (r : route) (first : value) : Z :=
  if nullish first then 500
  else
    match field first (standings_key r) with
    | VArr entries => if forallb (entry_ok r) entries then 200 else 500
    | _ => 500
    end.

(** The fields of a race copied as they are, and where they are read. *)
Definition copied_race_fields : list string :=
  [ "season"; "round"; "url"; "raceName"; "date" ].

(** The three facts about an answer whose status is a literal other
    than 200, and about one that mirrors a status [st] with
    [Hok : ok st = false]. *)
Ltac fixed_outcome :=
  unfold reply_of; cbn [run snd status body internal_error upstream_error];
  split; [auto 6|]; split; [intros _; eexists; reflexivity|discriminate].

Ltac mirrored_outcome Hok :=
  unfold reply_of; cbn [run snd status body internal_error upstream_error];
  split; [eauto 10|]; split;
  [intros _; eexists; reflexivity
  |let H := fresh in intro H; rewrite H in Hok; discriminate Hok].

(** The fields of a circuit and of its location, copied as they are. *)
Definition circuit_fields : list string := [ "circuitId"; "url"; "circuitName" ].

Definition location_fields : list string := [ "lat"; "long"; "locality"; "country" ].

(** The fields of a driver copied as they are, and the two with a
    [null] default. *)
Definition copied_driver_fields : list string :=
  [ "driverId"; "url"; "givenName"; "familyName"; "dateOfBirth"; "nationality" ].

Definition defaulted_driver_fields : list string := [ "permanentNumber"; "code" ].

(** Proves a statement about every key of a short list of literals, one
    key at a time. *)
Ltac each_key H :=
  cbn in H; decompose [or] H; clear H; try contradiction; subst.

(** ** Further sample documents *)

Definition hamilton : value :=
  VObj
    [ ("driverId", VStr "hamilton");
      ("permanentNumber", VStr "44");
      ("code", VStr "HAM");
      ("url", VStr "http://en.wikipedia.org/wiki/Lewis_Hamilton");
      ("givenName", VStr "Lewis");
      ("familyName", VStr "Hamilton");
      ("dateOfBirth", VStr "1985-01-07");
      ("nationality", VStr "British") ].

(** A driver of 1950: no permanent number, no code. *)
Definition fangio : value :=
  VObj
    [ ("driverId", VStr "fangio");
      ("url", VStr "http://en.wikipedia.org/wiki/Juan_Manuel_Fangio");
      ("givenName", VStr "Juan");
      ("familyName", VStr "Fangio");
      ("dateOfBirth", VStr "1911-06-24");
      ("nationality", VStr "Argentine") ].

Definition fangio_shaped : value :=
  VObj
    [ ("driverId", VStr "fangio");
      ("permanentNumber", VNull);
      ("code", VNull);
      ("url", VStr "http://en.wikipedia.org/wiki/Juan_Manuel_Fangio");
      ("givenName", VStr "Juan");
      ("familyName", VStr "Fangio");
      ("dateOfBirth", VStr "1911-06-24");
      ("nationality", VStr "Argentine") ].

(** What OpenF1 sends for a season, cut down to one meeting. *)
Definition meetings : value :=
  VArr
    [ VObj
        [ ("meeting_key", VNum 1229);
          ("meeting_name", VStr "Bahrain Grand Prix");
          ("year", VNum 2024) ] ].

(** A standings list without its entries. *)
Definition standings_without_entries : value :=
  VObj [ ("season", VStr "2022"); ("round", VStr "22") ].

Definition fetch_failed : error := Err "fetch failed".

(** ** What the client receives *)

(** Express's [res.send] empties the body of an answer with status 204
    or 304. *)
Definition bodiless (st : Z) : bool := (st =? 204) || (st =? 304).

(** The body the client of a [GET] request without conditional headers
    receives: none for a bodiless status, otherwise the JSON of the
    object handed to [res.json]. *)
Definition received (r : response) : option value :=
  if bodiless (status r) then None else Some (on_wire (body r)).

(** The [error] text each route gives to a mandatory response that is
    not [ok]. *)
Definition not_ok_text (r : route) : string :=
  match r with
  | Calendar => "Erro ao buscar dados da Ergast API"
  | Drivers => "Erro ao buscar dados dos pilotos"
  | Constructors => "Erro ao buscar dados das equipes"
  | DriverStandings => "Erro ao buscar classificação de pilotos"
  | ConstructorStandings => "Erro ao buscar classificação de construtores"
  end.

(** What a document holds at the place a route expects its data,
    [undefined] when any step of the way is missing. *)
Definition expected_at (r : route) (data : value) : value :=
  match r with
  | Calendar => field (field (field data "MRData") "RaceTable") "Races"
  | Drivers => field (field (field data "MRData") "DriverTable") "Drivers"
  | Constructors =>
      field (field (field data "MRData") "ConstructorTable") "Constructors"
  | DriverStandings | ConstructorStandings =>
      field (field (field data "MRData") "StandingsTable") "StandingsLists"
  end.

(** A second race of 2024, with its location. *)
Definition jeddah : value :=
  VObj
    [ ("season", VStr "2024");
      ("round", VStr "2");
      ("url", VStr "https://en.wikipedia.org/wiki/2024_Saudi_Arabian_Grand_Prix");
      ("raceName", VStr "Saudi Arabian Grand Prix");
      ("Circuit", VObj
        [ ("circuitId", VStr "jeddah");
          ("url", VStr "http://en.wikipedia.org/wiki/Jeddah_Street_Circuit");
          ("circuitName", VStr "Jeddah Corniche Circuit");
          ("Location", VObj
            [ ("lat", VStr "21.6319");
              ("long", VStr "39.1044");
              ("locality", VStr "Jeddah");
              ("country", VStr "Saudi Arabia") ]) ]);
      ("date", VStr "2024-03-09");
      ("time", VStr "17:00:00Z");
      ("Qualifying", VObj [ ("date", VStr "2024-03-08"); ("time", VStr "17:00:00Z") ]) ].

(** The entry of Verstappen as the drivers' standings route sends it. *)
Definition verstappen_shaped : value :=
  VObj
    [ ("position", VStr "1");
      ("positionText", VStr "1");
      ("points", VStr "454");
      ("wins", VStr "15");
      ("driver", VObj
        [ ("driverId", VStr "max_verstappen");
          ("code", VStr "VER");
          ("givenName", VStr "Max");
          ("familyName", VStr "Verstappen");
          ("nationality", VStr "Dutch") ]);
      ("constructors", VArr
        [ VObj [ ("constructorId", VStr "red_bull"); ("name", VStr "Red Bull") ] ]) ].

(** A mandatory response 304: it has no body to parse. *)
Definition not_modified : fetch_result :=
  Responded 304 (Throw (Err "Unexpected end of JSON input")).

(** * Properties *)

(** ** Year validation *)

Lemma digit_of_spec (c : ascii) : digit_of c = spec_digit c.
Proof. destruct c as [[] [] [] [] [] [] [] []]; reflexivity. Qed.

Lemma digit_is_plain (a : ascii) (d : Z) :
  digit_of a = Some d ->
  space1 a = false
  /\ (forall b, space2 a b = false)
  /\ (forall b c, space3 a b c = false)
  /\ a <> "-"%char /\ a <> "+"%char.
Proof.
  destruct a as [[] [] [] [] [] [] [] []]; vm_compute; intro H;
    try discriminate H; repeat split; intros; discriminate.
Qed.

Lemma trim_start_digit (a : ascii) (d : Z) (rest : string) :
  digit_of a = Some d -> trim_start (String a rest) = String a rest.
Proof.
  intro H. destruct (digit_is_plain a d H) as (H1 & H2 & H3 & _).
  simpl. rewrite H1. destruct rest as [|b r2]; [reflexivity|].
  rewrite H2. destruct r2 as [|c r3]; [reflexivity|].
  now rewrite H3.
Qed.

Lemma parseInt_digit_first (a : ascii) (d : Z) (rest : string) :
  digit_of a = Some d ->
  parseInt (String a rest) = leading_digits (String a rest) None.
Proof.
  intro H. unfold parseInt. rewrite (trim_start_digit a d rest H).
  destruct (digit_is_plain a d H) as (_ & _ & _ & Hm & Hp).
  destruct (ascii_dec a "-") as [->|_]; [congruence|].
  destruct (ascii_dec a "+") as [->|_]; [congruence|].
  destruct a as [[] [] [] [] [] [] [] []]; try reflexivity; congruence.
Qed.

(** On a token the pattern accepts, [parseInt] is the value the
    specification gives it, and the pattern accepts nothing else. *)
Lemma spec_year_value_code (year : string) :
  spec_year_value year
  = if test_four_digits year then parseInt year else None.
Proof.
  destruct year as [|a [|b [|c [|d [|e r]]]]]; try reflexivity.
  cbn [spec_year_value test_four_digits].
  unfold is_digit. rewrite <- !digit_of_spec.
  destruct (digit_of a) as [x|] eqn:Ha; [|reflexivity].
  destruct (digit_of b) as [y|] eqn:Hb; [|reflexivity].
  destruct (digit_of c) as [z|] eqn:Hc; [|reflexivity].
  destruct (digit_of d) as [w|] eqn:Hd; [|reflexivity].
  cbn [andb]. rewrite (parseInt_digit_first a x _ Ha).
  cbn [leading_digits]. rewrite Ha, Hb, Hc, Hd. f_equal. lia.
Qed.

Lemma append_cons_not_empty (c : ascii) (s t : string) :
  (String c s ++ t)%string <> EmptyString.
Proof. discriminate. Qed.

(** C3. [validateYear] accepts a token exactly when the token is
    [current] or has exactly four ASCII digits whose value lies between
    1950 and the calendar year plus one, and every token it rejects
    comes with a message that is not empty.  The calendar year is the
    one read when the module is loaded, from which [F1_MAX_YEAR] is
    computed. *)
Theorem validateYear_spec (startYear : Z) (year : string) :
  match validateYear startYear year with
  | Valid => spec_valid_year startYear year = true
  | Invalid msg => spec_valid_year startYear year = false /\ msg <> EmptyString
  end.
Proof.
  unfold validateYear, spec_valid_year.
  destruct (year =? "current")%string; [reflexivity|].
  rewrite spec_year_value_code. cbn [orb].
  destruct (test_four_digits year) eqn:Ht.
  - destruct (parseInt year) as [n|] eqn:Hp; cbn [isNaN negb orb num_lt num_gt].
    + unfold F1_MIN_YEAR, F1_MAX_YEAR.
      destruct (n <? 1950) eqn:Hlo; cbn [orb].
      * split; [|apply append_cons_not_empty].
        apply Z.ltb_lt in Hlo. apply andb_false_iff. left. apply Z.leb_gt. lia.
      * apply Z.ltb_ge in Hlo.
        destruct (n >? startYear + 1) eqn:Hhi.
        -- split; [|apply append_cons_not_empty].
           apply Z.gtb_lt in Hhi. apply andb_false_iff. right. apply Z.leb_gt. lia.
        -- apply andb_true_iff. split; [apply Z.leb_le; lia|].
           apply Z.leb_le. rewrite Z.gtb_ltb in Hhi. apply Z.ltb_ge in Hhi. lia.
    + split; [reflexivity|apply append_cons_not_empty].
  - rewrite orb_true_r. split; [reflexivity|apply append_cons_not_empty].
Qed.

(** The tokens the specification names. *)
Example validateYear_samples :
  validateYear 2026 "current" = Valid
  /\ validateYear 2026 "1950" = Valid
  /\ validateYear 2026 "2027" = Valid
  /\ validateYear 2026 "1949" = Invalid "Ano deve estar entre 1950 e 2027."
  /\ validateYear 2026 "2028" = Invalid "Ano deve estar entre 1950 e 2027."
  /\ valid (validateYear 2026 "99") = false
  /\ valid (validateYear 2026 "20245") = false
  /\ valid (validateYear 2026 "abcd") = false
  /\ valid (validateYear 2026 " 2024") = false
  /\ valid (validateYear 2026 "+202") = false.
Proof. repeat split. Qed.

(** ** Property reads *)

Lemma get_not_nullish (v : value) (k : string) (x : value) :
  get v k = Ok x -> nullish v = false.
Proof. destruct v; simpl; intro H; try reflexivity; discriminate H. Qed.

(** Away from [length], a read that does not throw gives the own
    property or [undefined]. *)
Lemma get_field (v : value) (k : string) :
  nullish v = false -> (k =? "length")%string = false ->
  get v k = Ok (field v k).
Proof.
  intros Hv Hk. destruct v; simpl in *; try discriminate Hv; try reflexivity;
    now rewrite Hk.
Qed.

Lemma get_Ok_field (v : value) (k : string) (x : value) :
  (k =? "length")%string = false -> get v k = Ok x -> x = field v k.
Proof.
  intros Hk H. pose proof (get_not_nullish _ _ _ H) as Hv.
  rewrite (get_field v k Hv Hk) in H. congruence.
Qed.

Lemma get_array_object (v : value) (k : string) (items : list value) :
  (k =? "length")%string = false -> get v k = Ok (VArr items) ->
  exists fields, v = VObj fields.
Proof.
  intros Hk H. destruct v; simpl in H; try discriminate H;
    try (rewrite Hk in H; discriminate H).
  now exists fields.
Qed.

Lemma mapM_Forall2 {A B} (f : A -> result B) (l : list A) (l' : list B) :
  mapM f l = Ok l' -> Forall2 (fun a b => f a = Ok b) l l'.
Proof.
  revert l'. induction l as [|a l IH]; simpl; intros l' H.
  - injection H as <-. constructor.
  - destruct (f a) as [b|e] eqn:Hf; [|discriminate H]. cbn [bind] in H.
    destruct (mapM f l) as [bs|e] eqn:Hm; [|discriminate H]. cbn [bind] in H.
    injection H as <-. constructor; auto.
Qed.

Lemma mapM_length {A B} (f : A -> result B) (l : list A) (l' : list B) :
  mapM f l = Ok l' -> List.length l' = List.length l.
Proof.
  intro H. apply mapM_Forall2 in H. symmetry. eapply Forall2_length; eauto.
Qed.

(** [mapM] succeeds exactly when the callback succeeds on every
    element. *)
Lemma mapM_defined {A B} (f : A -> result B) (ok_on : A -> bool) (l : list A) :
  (forall a, ok_on a = true <-> exists b, f a = Ok b) ->
  forallb ok_on l = true <-> exists l', mapM f l = Ok l'.
Proof.
  intro Hf. induction l as [|a l IH]; simpl.
  - split; [eauto|reflexivity].
  - rewrite andb_true_iff, IH, Hf. split.
    + intros [[b Hb] [bs Hbs]]. rewrite Hb, Hbs. simpl. eauto.
    + intros [l' H]. destruct (f a) as [b|e]; [|discriminate H].
      cbn [bind] in H. destruct (mapM f l) as [bs|e]; [|discriminate H]. eauto.
Qed.

(** ** Shaping one race *)

Lemma path2_Ok (v : value) (k1 k2 : string) (x : value) :
  (k1 =? "length")%string = false -> (k2 =? "length")%string = false ->
  path v [k1; k2] = Ok x ->
  nullish v = false /\ nullish (field v k1) = false
  /\ x = field (field v k1) k2.
Proof.
  intros H1 H2 H. cbn [path] in H. split_reads H. injection H as <-.
  apply (get_Ok_field _ _ _ H1) in E as Ev. subst.
  repeat split.
  - eapply get_not_nullish; eauto.
  - eapply get_not_nullish; eauto.
  - now apply get_Ok_field.
Qed.

Lemma path3_Ok (v : value) (k1 k2 k3 : string) (x : value) :
  (k1 =? "length")%string = false -> (k2 =? "length")%string = false ->
  (k3 =? "length")%string = false ->
  path v [k1; k2; k3] = Ok x ->
  nullish (field (field v k1) k2) = false
  /\ x = field (field (field v k1) k2) k3.
Proof.
  intros H1 H2 H3 H. cbn [path] in H. split_reads H. injection H as <-.
  apply (get_Ok_field _ _ _ H1) in E as Ev. subst.
  apply (get_Ok_field _ _ _ H2) in E0 as Ev. subst.
  split.
  - eapply get_not_nullish; eauto.
  - now apply get_Ok_field.
Qed.

Lemma shape_race_located (race : value) :
  has_location race = true -> shape_race race = Ok (race_record race).
Proof.
  unfold has_location. rewrite !andb_true_iff, !negb_true_iff.
  intros [[Hr Hc] Hl]. unfold shape_race. cbn [path].
  repeat (rewrite get_field by (assumption || reflexivity); cbn [bind]).
  reflexivity.
Qed.

Lemma shape_race_Ok (race shaped : value) :
  shape_race race = Ok shaped ->
  has_location race = true /\ shaped = race_record race.
Proof.
  intro H. assert (Hloc : has_location race = true).
  { unfold shape_race in H. split_reads H.
    apply path3_Ok in E8 as [Hl _]; try reflexivity.
    apply path2_Ok in E5 as (Hr & Hc & _); try reflexivity.
    unfold has_location. now rewrite Hr, Hc, Hl. }
  split; [exact Hloc|].
  rewrite (shape_race_located race Hloc) in H. congruence.
Qed.

(** Shaping a race throws exactly when the record has no [Circuit] or no
    [Location] in it. *)
Lemma shape_race_defined (race : value) :
  has_location race = true <-> exists shaped, shape_race race = Ok shaped.
Proof.
  split.
  - intro H. eexists. now apply shape_race_located.
  - intros [shaped H]. now apply shape_race_Ok in H.
Qed.

(** ** Running a handler *)

Section Run.

Variable upstream : string -> fetch_result.

Lemma reply_Fetch url headers k :
  reply_of upstream (Fetch url headers k) = reply_of upstream (k (upstream url)).
Proof. unfold reply_of. simpl. now destruct (run upstream (k (upstream url))). Qed.

Lemma reply_ConsoleWarn text detail k :
  reply_of upstream (ConsoleWarn text detail k) = reply_of upstream k.
Proof. unfold reply_of. simpl. now destruct (run upstream k). Qed.

Lemma reply_ConsoleError text e k :
  reply_of upstream (ConsoleError text e k) = reply_of upstream k.
Proof. unfold reply_of. simpl. now destruct (run upstream k). Qed.

Lemma trace_Fetch url headers k :
  trace_of upstream (Fetch url headers k)
  = Fetched url headers :: trace_of upstream (k (upstream url)).
Proof. unfold trace_of. simpl. now destruct (run upstream (k (upstream url))). Qed.

Lemma trace_ConsoleWarn text detail k :
  trace_of upstream (ConsoleWarn text detail k)
  = Warned text detail :: trace_of upstream k.
Proof. unfold trace_of. simpl. now destruct (run upstream k). Qed.

Lemma trace_ConsoleError text e k :
  trace_of upstream (ConsoleError text e k)
  = Reported text e :: trace_of upstream k.
Proof. unfold trace_of. simpl. now destruct (run upstream k). Qed.

Lemma reply_internal_error text e :
  reply_of upstream (internal_error text e)
  = Reply 500 (VObj [ ("error", VStr "Erro interno do servidor");
                      ("message", VStr (message e)) ]).
Proof. reflexivity. Qed.

Lemma trace_internal_error text e :
  trace_of upstream (internal_error text e) = [Reported text e].
Proof. reflexivity. Qed.

End Run.

Lemma ok_not_200 (st : Z) : ok st = false -> st <> 200.
Proof. intros H ->. discriminate H. Qed.

Lemma ergast_calendar_not_openf1 (year : string) (headers : list (string * string)) :
  to_openf1 (Fetched (ergast_calendar_url year) headers) = false.
Proof. reflexivity. Qed.

Lemma ergast_not_openf1 (year resource : string) (headers : list (string * string)) :
  to_openf1 (Fetched (ergast_url year resource) headers) = false.
Proof. reflexivity. Qed.

(** ** The calendar route, step by step *)

(** What [shape_calendar] has found when it returns races. *)
Lemma shape_calendar_Races (data mrData races : value) :
  shape_calendar data = Ok (Races mrData races) ->
  exists fields rs shaped,
    get data "MRData" = Ok mrData
    /\ get mrData "RaceTable" = Ok (VObj fields)
    /\ get (VObj fields) "Races" = Ok (VArr rs)
    /\ mapM shape_race rs = Ok shaped
    /\ races = VArr shaped.
Proof.
  unfold shape_calendar. intro H.
  destruct (get data "MRData") as [mr|] eqn:Emr; [|discriminate H]. cbn [bind] in H.
  destruct (get mr "RaceTable") as [rt|] eqn:Ert; [|discriminate H]. cbn [bind] in H.
  cbn [path] in H. rewrite Ert in H. cbn [bind] in H.
  destruct (get rt "Races") as [container|] eqn:Ec.
  2:{ destruct (truthy rt); cbn [bind] in H; discriminate H. }
  cbn [bind] in H.
  destruct (truthy rt) eqn:Trt; cbn [bind] in H; [|discriminate H].
  destruct (truthy container) eqn:Tc; cbn [negb] in H; [|discriminate H].
  destruct container; try discriminate H; try discriminate Tc.
  cbn [js_map] in H. destruct (mapM shape_race items) as [shaped|] eqn:Em;
    [|discriminate H].
  cbn [bind] in H. injection H as <- <-.
  destruct (get_array_object rt "Races" items eq_refl Ec) as [fields ->].
  exists fields, items, shaped. auto.
Qed.

(** The converse: a document with an array under [MRData.RaceTable.Races]
    goes on to the shaping of its elements. *)
Lemma shape_calendar_array (data : value) (rs : list value) :
  path data ["MRData"; "RaceTable"; "Races"] = Ok (VArr rs) ->
  exists mrData fields,
    get mrData "RaceTable" = Ok (VObj fields)
    /\ shape_calendar data
       = (shaped <- mapM shape_race rs ;; Ok (Races mrData (VArr shaped))).
Proof.
  intro H. cbn [path] in H.
  destruct (get data "MRData") as [mr|] eqn:Emr; [|discriminate H]. cbn [bind] in H.
  destruct (get mr "RaceTable") as [rt|] eqn:Ert; [|discriminate H]. cbn [bind] in H.
  destruct (get rt "Races") as [c|] eqn:Ec; [|discriminate H]. cbn [bind] in H.
  injection H as ->.
  destruct (get_array_object rt "Races" rs eq_refl Ec) as [fields ->].
  exists mr, fields. split; [exact Ert|].
  unfold shape_calendar. rewrite Emr. cbn [bind path]. rewrite Ert. cbn [bind].
  rewrite Ec. cbn [bind truthy negb js_map].
  destruct (mapM shape_race rs); reflexivity.
Qed.

Lemma calendar_answer_sent (year : string) (mrData : value)
  (fields : list (string * value)) (shaped : list value)
  (requestedYear : option Z) (openf1Data : value) :
  get mrData "RaceTable" = Ok (VObj fields) ->
  calendar_answer year mrData (VArr shaped) requestedYear openf1Data
  = Send 200
      (VObj
        [ ("calendar", VObj
            [ ("requestedYear",
                js_or (field (VObj fields) "season") (VStr year));
              ("totalRaces", VNum (Z.of_nat (List.length shaped)));
              ("races", VArr shaped) ]);
          ("openf1Data", openf1Data);
          ("sources", VObj
            [ ("ergast", VStr (ergast_calendar_url year));
              ("openf1",
                if num_ge requestedYear OPENF1_MIN_YEAR
                then VStr (openf1_url requestedYear)
                else VNull) ]) ]).
Proof.
  intro H. unfold calendar_answer. cbn [path]. rewrite H. reflexivity.
Qed.

(** Whatever the optional source does, the handler goes on with some
    value for [openf1Data]. *)
Lemma calendar_openf1_continues (upstream : string -> fetch_result)
  (requestedYear : option Z) (k : value -> handler) :
  exists openf1Data,
    reply_of upstream (calendar_openf1 requestedYear k)
    = reply_of upstream (k openf1Data).
Proof.
  unfold calendar_openf1. destruct (num_ge requestedYear OPENF1_MIN_YEAR).
  - rewrite reply_Fetch.
    destruct (upstream (openf1_url requestedYear)) as [e|st [v|e]].
    + exists VNull. now rewrite reply_ConsoleWarn.
    + destruct (ok st); eauto.
    + destruct (ok st); [|eauto]. exists VNull. now rewrite reply_ConsoleWarn.
  - eauto.
Qed.

(** A failed optional fetch leaves [openf1Data] at [null]. *)
Lemma calendar_openf1_failed (upstream : string -> fetch_result)
  (requestedYear : option Z) (k : value -> handler) :
  num_ge requestedYear OPENF1_MIN_YEAR = true ->
  optional_failed (upstream (openf1_url requestedYear)) = true ->
  reply_of upstream (calendar_openf1 requestedYear k)
  = reply_of upstream (k VNull).
Proof.
  intros Hge Hfail. unfold calendar_openf1. rewrite Hge, reply_Fetch.
  destruct (upstream (openf1_url requestedYear)) as [e|st [v|e]];
    cbn [optional_failed] in Hfail.
  - now rewrite reply_ConsoleWarn.
  - apply negb_true_iff in Hfail. now rewrite Hfail.
  - destruct (ok st); [now rewrite reply_ConsoleWarn|reflexivity].
Qed.

(** Before 2023 the optional fetch is not part of the handler at all. *)
Lemma calendar_openf1_skipped (requestedYear : option Z) (k : value -> handler) :
  num_ge requestedYear OPENF1_MIN_YEAR = false ->
  calendar_openf1 requestedYear k = k VNull.
Proof. intro H. unfold calendar_openf1. now rewrite H. Qed.

Lemma calendar_answer_no_fetch (upstream : string -> fetch_result)
  (year : string) (mrData races : value) (requestedYear : option Z)
  (openf1Data : value) :
  optional_calls
    (trace_of upstream (calendar_answer year mrData races requestedYear openf1Data))
  = 0%nat.
Proof.
  unfold calendar_answer.
  destruct (path mrData ["RaceTable"; "season"]) as [season|e]; cbn [bind attempt];
    [|reflexivity].
  destruct (get races "length") as [n|e]; reflexivity.
Qed.

Lemma calendar_answer_status (upstream : string -> fetch_result)
  (year : string) (mrData races : value) (requestedYear : option Z)
  (v w : value) :
  status (reply_of upstream (calendar_answer year mrData races requestedYear v))
  = status (reply_of upstream (calendar_answer year mrData races requestedYear w)).
Proof.
  unfold calendar_answer.
  destruct (path mrData ["RaceTable"; "season"]) as [season|e]; cbn [bind attempt];
    [|reflexivity].
  destruct (get races "length") as [n|e]; reflexivity.
Qed.

(** The status the calendar route answers with is decided by the
    mandatory source alone: two upstreams that agree on the Ergast URL
    get the same status, whatever OpenF1 does in either. *)
Lemma calendar_status_ignores_openf1 (startYear now : Z) (year : string)
  (upstream upstream' : string -> fetch_result) :
  upstream (ergast_calendar_url year) = upstream' (ergast_calendar_url year) ->
  status (reply_of upstream (calendar startYear now year))
  = status (reply_of upstream' (calendar startYear now year)).
Proof.
  intro H. unfold calendar. destruct (validateYear startYear year); [|reflexivity].
  rewrite !reply_Fetch, <- H.
  destruct (upstream (ergast_calendar_url year)) as [e|st [data|e]]; try reflexivity.
  - destruct (ok st); cbn [negb bind attempt]; [|reflexivity].
    destruct (shape_calendar data) as [[|mrData races]|e]; cbn [attempt];
      try reflexivity.
    destruct (calendar_openf1_continues upstream (requested_year now year)
                (calendar_answer year mrData races (requested_year now year)))
      as [v ->].
    destruct (calendar_openf1_continues upstream' (requested_year now year)
                (calendar_answer year mrData races (requested_year now year)))
      as [w ->].
    rewrite (calendar_answer_status upstream _ _ _ _ v w).
    unfold calendar_answer.
    destruct (path mrData ["RaceTable"; "season"]) as [season|e]; cbn [bind attempt];
      [|reflexivity].
    destruct (get races "length") as [n|e]; reflexivity.
  - destruct (ok st); reflexivity.
Qed.

Lemma forallb_has_location_shaped (rs : list value) :
  forallb has_location rs = true ->
  exists shaped, mapM shape_race rs = Ok shaped
                 /\ List.length shaped = List.length rs.
Proof.
  intro H. apply (mapM_defined shape_race has_location rs shape_race_defined) in H.
  destruct H as [shaped H]. exists shaped. split; [exact H|].
  now apply mapM_length in H.
Qed.

(** ** Properties of the calendar route *)

(** C1. A calendar request for 2023 or later whose mandatory source has
    answered with an array of races, each carrying its circuit and
    location, is answered with status 200, [totalRaces] equal to the
    number of races of the mandatory source and [openf1Data] present and
    [null], whenever the optional fetch fails: by a rejected request, by
    a status that is not 2xx, or by a body that does not parse. *)
Theorem optional_failure_is_swallowed (startYear now : Z) (year : string)
  (upstream : string -> fetch_result) (y st : Z) (data : value)
  (rs : list value) :
  validateYear startYear year = Valid ->
  requested_year now year = Some y ->
  OPENF1_MIN_YEAR <= y ->
  upstream (ergast_calendar_url year) = Responded st (Ok data) ->
  ok st = true ->
  path data ["MRData"; "RaceTable"; "Races"] = Ok (VArr rs) ->
  forallb has_location rs = true ->
  optional_failed (upstream (openf1_url (Some y))) = true ->
  let res := reply_of upstream (handle startYear Calendar now year) in
  status res = 200
  /\ field (field (body res) "calendar") "totalRaces"
     = VNum (Z.of_nat (List.length rs))
  /\ (exists shaped,
        field (field (body res) "calendar") "races" = VArr shaped
        /\ List.length shaped = List.length rs)
  /\ field (body res) "openf1Data" = VNull
  /\ has_key (on_wire (body res)) "openf1Data" = true.
Proof.
  intros Hvalid Hyear Hy Hup Hok Hpath Hloc Hfail res. subst res.
  cbn [handle]. unfold calendar. rewrite Hvalid, reply_Fetch, Hup, Hok.
  cbn [negb bind].
  destruct (shape_calendar_array data rs Hpath) as (mrData & fields & Hrt & ->).
  destruct (forallb_has_location_shaped rs Hloc) as (shaped & -> & Hlen).
  cbn [bind attempt]. rewrite Hyear.
  rewrite calendar_openf1_failed; [| |exact Hfail].
  2:{ cbn [num_ge]. apply Z.geb_le. exact Hy. }
  rewrite (calendar_answer_sent _ _ fields _ _ _ Hrt).
  cbn -[Z.of_nat]. rewrite Hlen. repeat split. now exists shaped.
Qed.

(** C2. A calendar request whose resolved year, the current calendar
    year for [current] and the parsed integer otherwise, is below 2023
    performs no fetch to OpenF1, and the answer it sends on success has
    [sources.openf1] at [null]. *)
Theorem no_optional_fetch_before_2023 (startYear now : Z) (year : string)
  (upstream : string -> fetch_result) (y : Z) :
  requested_year now year = Some y ->
  y < OPENF1_MIN_YEAR ->
  optional_calls (trace_of upstream (handle startYear Calendar now year)) = 0%nat
  /\ (status (reply_of upstream (handle startYear Calendar now year)) = 200 ->
      field (field (body (reply_of upstream (handle startYear Calendar now year)))
               "sources") "openf1" = VNull).
Proof.
  intros Hyear Hy. cbn [handle]. unfold calendar.
  assert (Hge : num_ge (Some y) OPENF1_MIN_YEAR = false).
  { cbn [num_ge]. rewrite Z.geb_leb. apply Z.leb_gt. exact Hy. }
  destruct (validateYear startYear year); [|split; [reflexivity|discriminate]].
  rewrite trace_Fetch, reply_Fetch.
  destruct (upstream (ergast_calendar_url year)) as [e|st [data|e]].
  - split; [reflexivity|discriminate].
  - destruct (ok st) eqn:Hok; cbn [negb bind].
    2:{ split; [reflexivity|]. cbn. intro H. now apply ok_not_200 in Hok. }
    destruct (shape_calendar data) as [[|mrData races]|e] eqn:Hshape; cbn [attempt];
      try (split; [reflexivity|discriminate]).
    rewrite Hyear, (calendar_openf1_skipped _ _ Hge).
    split.
    + unfold optional_calls. cbn [filter]. rewrite ergast_calendar_not_openf1.
      apply calendar_answer_no_fetch.
    + destruct (shape_calendar_Races _ _ _ Hshape)
        as (fields & rs & shaped & _ & Hrt & _ & _ & ->).
      rewrite (calendar_answer_sent _ _ fields _ _ _ Hrt), Hge. reflexivity.
  - destruct (ok st) eqn:Hok; cbn [negb bind attempt].
    + split; [reflexivity|discriminate].
    + split; [reflexivity|]. cbn. intro H. now apply ok_not_200 in Hok.
Qed.

(** C9. Every calendar answer with status 200 carries in [races] the
    shaping of the races of the mandatory source, element by element in
    the order of the source, and in [totalRaces] the length of that
    list. *)
Theorem calendar_count_and_order (startYear now : Z) (year : string)
  (upstream : string -> fetch_result) :
  status (reply_of upstream (handle startYear Calendar now year)) = 200 ->
  exists st data rs shaped,
    upstream (ergast_calendar_url year) = Responded st (Ok data)
    /\ path data ["MRData"; "RaceTable"; "Races"] = Ok (VArr rs)
    /\ field (field (body (reply_of upstream (handle startYear Calendar now year)))
                "calendar") "races" = VArr shaped
    /\ field (field (body (reply_of upstream (handle startYear Calendar now year)))
                "calendar") "totalRaces" = VNum (Z.of_nat (List.length shaped))
    /\ List.length shaped = List.length rs
    /\ Forall2 (fun race s => shape_race race = Ok s) rs shaped.
Proof.
  cbn [handle]. unfold calendar.
  destruct (validateYear startYear year); [|discriminate].
  rewrite reply_Fetch.
  destruct (upstream (ergast_calendar_url year)) as [e|st [data|e]]; [discriminate| |].
  - destruct (ok st) eqn:Hok; cbn [negb bind].
    2:{ cbn. intro H. now apply ok_not_200 in Hok. }
    destruct (shape_calendar data) as [[|mrData races]|e] eqn:Hshape; cbn [attempt];
      try discriminate.
    destruct (shape_calendar_Races _ _ _ Hshape)
      as (fields & rs & shaped & Hmr & Hrt & Hc & Hmap & ->).
    destruct (calendar_openf1_continues upstream (requested_year now year)
                (calendar_answer year mrData (VArr shaped) (requested_year now year)))
      as [v ->].
    rewrite (calendar_answer_sent _ _ fields _ _ _ Hrt). intros _.
    exists st, data, rs, shaped. repeat split.
    + cbn [path]. rewrite Hmr. cbn [bind]. rewrite Hrt. cbn [bind].
      rewrite Hc. reflexivity.
    + now apply mapM_length in Hmap.
    + now apply mapM_Forall2.
  - destruct (ok st) eqn:Hok; cbn [negb bind attempt]; [discriminate|].
    cbn. intro H. now apply ok_not_200 in Hok.
Qed.

(** C10. When the mandatory source answers a calendar request with an
    array of races one of which has no [Circuit], or a [Circuit] with no
    [Location], the answer has status 500, and OpenF1 is not asked. *)
Theorem race_without_location_is_500 (startYear now : Z) (year : string)
  (upstream : string -> fetch_result) (st : Z) (data : value)
  (rs : list value) :
  validateYear startYear year = Valid ->
  upstream (ergast_calendar_url year) = Responded st (Ok data) ->
  ok st = true ->
  path data ["MRData"; "RaceTable"; "Races"] = Ok (VArr rs) ->
  forallb has_location rs = false ->
  status (reply_of upstream (handle startYear Calendar now year)) = 500
  /\ optional_calls (trace_of upstream (handle startYear Calendar now year)) = 0%nat.
Proof.
  intros Hvalid Hup Hok Hpath Hloc. cbn [handle]. unfold calendar.
  rewrite Hvalid, reply_Fetch, trace_Fetch, Hup, Hok. cbn [negb bind].
  destruct (shape_calendar_array data rs Hpath) as (mrData & fields & Hrt & ->).
  destruct (mapM shape_race rs) as [shaped|e] eqn:Hmap.
  - assert (forallb has_location rs = true) as Hall.
    { apply (mapM_defined shape_race has_location rs shape_race_defined). eauto. }
    congruence.
  - cbn [bind attempt]. split; reflexivity.
Qed.

(** ** The routes with one upstream, step by step *)

Lemma single_source_answered (startYear : Z) (year resource t1 t2 : string)
  (answer : value -> result response) (upstream : string -> fetch_result)
  (st : Z) (data : value) :
  validateYear startYear year = Valid ->
  upstream (ergast_url year resource) = Responded st (Ok data) ->
  ok st = true ->
  reply_of upstream (single_source startYear year resource t1 t2 answer)
  = reply_of upstream
      (attempt (answer data) (fun r => Send (status r) (body r)) (internal_error t2)).
Proof.
  intros Hvalid Hup Hok. unfold single_source.
  now rewrite Hvalid, reply_Fetch, Hup, Hok.
Qed.

Lemma single_source_not_ok (startYear : Z) (year resource t1 t2 : string)
  (answer : value -> result response) (upstream : string -> fetch_result)
  (st : Z) (json : result value) :
  validateYear startYear year = Valid ->
  upstream (ergast_url year resource) = Responded st json ->
  ok st = false ->
  run upstream (single_source startYear year resource t1 t2 answer)
  = ([Fetched (ergast_url year resource) []],
     Reply st (VObj [ ("error", VStr t1); ("status", VNum st) ])).
Proof.
  intros Hvalid Hup Hok. unfold single_source. rewrite Hvalid. cbn [run].
  now rewrite Hup, Hok.
Qed.

Lemma standings_route_answered (startYear now : Z) (r : route) (year : string)
  (upstream : string -> fetch_result) (st : Z) (data : value) :
  r = DriverStandings \/ r = ConstructorStandings ->
  validateYear startYear year = Valid ->
  upstream (mandatory_url r year) = Responded st (Ok data) ->
  ok st = true ->
  reply_of upstream (handle startYear r now year)
  = reply_of upstream
      (attempt (standings_answer (standings_key r) (standings_shape r) data)
         (fun a => Send (status a) (body a)) standings_catch).
Proof.
  intros [-> | ->] Hvalid Hup Hok; cbn [handle mandatory_url] in *;
    [unfold driver_standings | unfold constructor_standings];
    now rewrite (single_source_answered _ _ _ _ _ _ _ st data).
Qed.

Lemma standings_answer_no_data (key : string) (shape : value -> result value)
  (data lists : value) :
  standings_lists data = Ok lists ->
  nullish lists = true \/ lists = VArr [] ->
  standings_answer key shape data
  = Ok (Reply 404
          (VObj [ ("error", VStr "Classificação não disponível para este ano") ])).
Proof.
  intros Hl H. unfold standings_answer. rewrite Hl. cbn [bind].
  destruct H as [H | ->]; [|reflexivity].
  destruct lists; try discriminate H; reflexivity.
Qed.

Lemma standings_answer_first (key : string) (shape : value -> result value)
  (data first : value) (rest : list value) :
  standings_lists data = Ok (VArr (first :: rest)) ->
  standings_answer key shape data
  = (b <- standings_body key shape first ;; Ok (Reply 200 b)).
Proof. intro Hl. unfold standings_answer. now rewrite Hl. Qed.

Lemma standings_body_Ok (key : string) (shape : value -> result value)
  (first b : value) :
  (key =? "length")%string = false ->
  standings_body key shape first = Ok b ->
  field b "season" = field first "season"
  /\ field b "round" = field first "round"
  /\ exists entries shaped,
       field first key = VArr entries
       /\ field b "standings" = VArr shaped
       /\ Forall2 (fun entry s => shape entry = Ok s) entries shaped.
Proof.
  intros Hkey H. unfold standings_body in H.
  destruct (get first "season") as [season|] eqn:Es; [|discriminate H]. cbn [bind] in H.
  destruct (get first "round") as [round|] eqn:Er; [|discriminate H]. cbn [bind] in H.
  destruct (get first key) as [entries|] eqn:Ee; [|discriminate H]. cbn [bind] in H.
  destruct entries as [| | | | |entries|]; try discriminate H.
  cbn [js_map] in H.
  destruct (mapM shape entries) as [shaped|] eqn:Em; [|discriminate H].
  cbn [bind] in H. injection H as <-.
  apply get_Ok_field in Es; [|reflexivity].
  apply get_Ok_field in Er; [|reflexivity].
  apply get_Ok_field in Ee; [|exact Hkey].
  repeat split; try (cbn; congruence).
  exists entries, shaped. repeat split; [congruence|].
  now apply mapM_Forall2.
Qed.

(** ** Properties of every route *)

Lemma mirrored_run (startYear now : Z) (r : route) (year : string)
  (upstream : string -> fetch_result) (st : Z) (json : result value) :
  validateYear startYear year = Valid ->
  upstream (mandatory_url r year) = Responded st json ->
  ok st = false ->
  run upstream (handle startYear r now year)
  = ([Fetched (mandatory_url r year) []],
     Reply st (VObj [ ("error", VStr (not_ok_text r)); ("status", VNum st) ])).
Proof.
  intros Hvalid Hup Hok.
  destruct r; cbn [handle mandatory_url not_ok_text] in *;
    try (unfold drivers, constructors, driver_standings, constructor_standings;
         now apply (single_source_not_ok _ _ _ _ _ _ _ st json)).
  unfold calendar. rewrite Hvalid. cbn [run]. now rewrite Hup, Hok.
Qed.

(** C4, as the code has it. When the mandatory source answers a valid
    request with a final status outside 200 to 299, each of the five
    routes answers with that very status, hands [res.json] a body with
    an [error] text and performs no other fetch: the optional source is
    not asked at all.  The client receives that body, [error] key
    included, for every such status except 304, for which no body is
    sent. *)
Theorem upstream_status_is_mirrored (startYear now : Z) (r : route)
  (year : string) (upstream : string -> fetch_result) (st : Z)
  (json : result value) :
  validateYear startYear year = Valid ->
  upstream (mandatory_url r year) = Responded st json ->
  ok st = false ->
  200 <= st <= 999 ->
  status (reply_of upstream (handle startYear r now year)) = st
  /\ (exists text,
        field (body (reply_of upstream (handle startYear r now year))) "error"
        = VStr text)
  /\ trace_of upstream (handle startYear r now year)
     = [Fetched (mandatory_url r year) []]
  /\ match received (reply_of upstream (handle startYear r now year)) with
     | Some sent => st <> 304 /\ has_key sent "error" = true
     | None => st = 304
     end.
Proof.
  intros Hvalid Hup Hok Hst. unfold reply_of, trace_of.
  rewrite (mirrored_run startYear now r year upstream st json Hvalid Hup Hok).
  cbn [fst snd status body]. split; [reflexivity|]. split; [cbn; eauto|].
  split; [reflexivity|]. unfold received, bodiless. cbn [status body].
  assert (H204 : (st =? 204) = false).
  { apply Z.eqb_neq. intros ->. discriminate Hok. }
  rewrite H204. cbn [orb]. destruct (st =? 304) eqn:H304.
  - now apply Z.eqb_eq.
  - split; [now apply Z.eqb_neq|reflexivity].
Qed.


(** ** Documents without data *)

Lemma path3_array (data : value) (k1 k2 k3 : string) (items : list value) :
  (k3 =? "length")%string = false ->
  path data [k1; k2; k3] = Ok (VArr items) ->
  exists mrData fields,
    get data k1 = Ok mrData
    /\ get mrData k2 = Ok (VObj fields)
    /\ get (VObj fields) k3 = Ok (VArr items).
Proof.
  intros Hk H. cbn [path] in H.
  destruct (get data k1) as [mr|] eqn:E1; [|discriminate H]. cbn [bind] in H.
  destruct (get mr k2) as [table|] eqn:E2; [|discriminate H]. cbn [bind] in H.
  destruct (get table k3) as [c|] eqn:E3; [|discriminate H]. cbn [bind] in H.
  injection H as ->.
  destruct (get_array_object table k3 items Hk E3) as [fields ->].
  exists mr, fields. auto.
Qed.

Lemma drivers_answer_empty (data : value) :
  path data ["MRData"; "DriverTable"; "Drivers"] = Ok (VArr []) ->
  exists season,
    drivers_answer data
    = Ok (Reply 200 (VObj [ ("season", season);
                            ("totalDrivers", VNum 0);
                            ("drivers", VArr []) ])).
Proof.
  intro H. pose proof H as Hc.
  apply path3_array in H as (mr & fields & E1 & E2 & E3); [|reflexivity].
  unfold drivers_answer. rewrite Hc. cbn [bind js_map mapM path].
  rewrite E1. cbn [bind]. rewrite E2. cbn. eauto.
Qed.

Lemma constructors_answer_empty (data : value) :
  path data ["MRData"; "ConstructorTable"; "Constructors"] = Ok (VArr []) ->
  exists season,
    constructors_answer data
    = Ok (Reply 200 (VObj [ ("season", season);
                            ("totalConstructors", VNum 0);
                            ("constructors", VArr []) ])).
Proof.
  intro H. pose proof H as Hc.
  apply path3_array in H as (mr & fields & E1 & E2 & E3); [|reflexivity].
  unfold constructors_answer. rewrite Hc. cbn [bind js_map mapM path].
  rewrite E1. cbn [bind]. rewrite E2. cbn. eauto.
Qed.

Lemma field_defined_object (v : value) (k : string) :
  field v k <> VUndef -> exists fields, v = VObj fields.
Proof.
  destruct v as [| |b|n|s|items|fields]; cbn [field]; intro H; try congruence.
  now exists fields.
Qed.

(** A chain of three reads that finds an array goes through objects, so
    none of the reads throws. *)
Lemma path3_of_fields (data : value) (k1 k2 k3 : string) (items : list value) :
  field (field (field data k1) k2) k3 = VArr items ->
  path data [k1; k2; k3] = Ok (VArr items).
Proof.
  intro H.
  destruct (field_defined_object (field (field data k1) k2) k3) as [f3 H3];
    [rewrite H; discriminate|].
  destruct (field_defined_object (field data k1) k2) as [f2 H2];
    [rewrite H3; discriminate|].
  destruct (field_defined_object data k1) as [f1 H1]; [rewrite H2; discriminate|].
  rewrite H3 in H. rewrite H2 in H3. rewrite H1 in H2 |- *.
  cbn [path]. change (get (VObj f1) k1) with (Ok (field (VObj f1) k1)).
  rewrite H2. cbn [bind]. change (get (VObj f2) k2) with (Ok (field (VObj f2) k2)).
  rewrite H3. cbn [bind]. change (get (VObj f3) k3) with (Ok (field (VObj f3) k3)).
  now rewrite H.
Qed.

Lemma get_opt_field (v : value) (k : string) :
  (k =? "length")%string = false -> get_opt v k = Ok (field v k).
Proof.
  intro Hk. unfold get_opt. destruct (nullish v) eqn:Hv.
  - destruct v; try discriminate Hv; reflexivity.
  - now apply get_field.
Qed.

(** In a document other than [null], the handler's read of
    [StandingsLists] is the value at that place. *)
Lemma standings_lists_fields (r : route) (data : value) :
  r = DriverStandings \/ r = ConstructorStandings ->
  nullish data = false ->
  standings_lists data = Ok (expected_at r data).
Proof.
  intros Hr Hd. unfold standings_lists.
  rewrite (get_field data "MRData" Hd eq_refl). cbn [bind].
  rewrite (get_opt_field _ "StandingsTable" eq_refl). cbn [bind].
  rewrite (get_opt_field _ "StandingsLists" eq_refl).
  destruct Hr as [-> | ->]; reflexivity.
Qed.

(** C6, as the code has it. For a valid request answered 2xx by the
    mandatory source: the two standings routes answer a document other
    than [null] with 404 when its [StandingsLists] is missing, [null]
    or empty; the drivers and constructors routes answer an empty array
    of drivers or constructors with status 200, an empty list and a
    count of zero. *)
Theorem no_data_classification (startYear now : Z) (r : route) (year : string)
  (upstream : string -> fetch_result) (st : Z) (data : value) :
  r <> Calendar ->
  validateYear startYear year = Valid ->
  upstream (mandatory_url r year) = Responded st (Ok data) ->
  ok st = true ->
  match r with
  | DriverStandings | ConstructorStandings =>
      nullish data = false ->
      nullish (expected_at r data) = true \/ expected_at r data = VArr [] ->
      status (reply_of upstream (handle startYear r now year)) = 404
  | _ =>
      expected_at r data = VArr [] ->
      status (reply_of upstream (handle startYear r now year)) = 200
      /\ field (body (reply_of upstream (handle startYear r now year))) (list_key r)
         = VArr []
      /\ field (body (reply_of upstream (handle startYear r now year))) (count_key r)
         = VNum 0
  end.
Proof.
  intros Hr Hvalid Hup Hok.
  destruct r; cbn [mandatory_url handle list_key count_key] in *.
  - congruence.
  - intro Hc. apply path3_of_fields in Hc. unfold drivers.
    rewrite (single_source_answered _ _ _ _ _ _ _ st data Hvalid Hup Hok).
    destruct (drivers_answer_empty data Hc) as [season ->]. cbn. auto.
  - intro Hc. apply path3_of_fields in Hc. unfold constructors.
    rewrite (single_source_answered _ _ _ _ _ _ _ st data Hvalid Hup Hok).
    destruct (constructors_answer_empty data Hc) as [season ->]. cbn. auto.
  - intros Hd H. unfold driver_standings.
    rewrite (single_source_answered _ _ _ _ _ _ _ st data Hvalid Hup Hok).
    pose proof (standings_lists_fields DriverStandings data (or_introl eq_refl) Hd)
      as Hl.
    now rewrite (standings_answer_no_data _ _ _ _ Hl H).
  - intros Hd H. unfold constructor_standings.
    rewrite (single_source_answered _ _ _ _ _ _ _ st data Hvalid Hup Hok).
    pose proof (standings_lists_fields ConstructorStandings data (or_intror eq_refl) Hd)
      as Hl.
    now rewrite (standings_answer_no_data _ _ _ _ Hl H).
Qed.

(** The part of the container check the calendar route does make: with
    [MRData] in the document, a missing or falsy [RaceTable], or a
    missing or falsy [Races] in it, is answered with 404. *)
Lemma calendar_container_absent_is_404 (startYear now : Z) (year : string)
  (upstream : string -> fetch_result) (st : Z) (data : value) :
  validateYear startYear year = Valid ->
  upstream (ergast_calendar_url year) = Responded st (Ok data) ->
  ok st = true ->
  nullish data = false ->
  nullish (field data "MRData") = false ->
  truthy (field (field data "MRData") "RaceTable") = false
  \/ truthy (field (field (field data "MRData") "RaceTable") "Races") = false ->
  status (reply_of upstream (calendar startYear now year)) = 404.
Proof.
  intros Hvalid Hup Hok Hd Hmr H. unfold calendar.
  rewrite Hvalid, reply_Fetch, Hup, Hok. cbn [negb bind].
  unfold shape_calendar. rewrite (get_field data "MRData" Hd eq_refl). cbn [bind].
  rewrite (get_field _ "RaceTable" Hmr eq_refl). cbn [bind path].
  destruct (truthy (field (field data "MRData") "RaceTable")) eqn:Ht.
  - destruct H as [H|H]; [discriminate H|].
    rewrite (get_field _ "RaceTable" Hmr eq_refl). cbn [bind].
    rewrite (get_field _ "Races"); [|now destruct (field (field data "MRData") "RaceTable")|reflexivity].
    cbn [bind]. now rewrite H.
  - reflexivity.
Qed.

(** Without [MRData] the check itself throws, and the answer is 500. *)
Lemma calendar_MRData_absent_is_500 (startYear now : Z) (year : string)
  (upstream : string -> fetch_result) (st : Z) (data : value) :
  validateYear startYear year = Valid ->
  upstream (ergast_calendar_url year) = Responded st (Ok data) ->
  ok st = true ->
  nullish data = false ->
  nullish (field data "MRData") = true ->
  status (reply_of upstream (calendar startYear now year)) = 500.
Proof.
  intros Hvalid Hup Hok Hd Hmr. unfold calendar.
  rewrite Hvalid, reply_Fetch, Hup, Hok. cbn [negb bind].
  unfold shape_calendar. rewrite (get_field data "MRData" Hd eq_refl). cbn [bind].
  destruct (field data "MRData"); try discriminate Hmr; reflexivity.
Qed.

(** ** Session fields *)

(** A property that holds a value other than [undefined] is still there
    after serialisation. *)
Lemma on_wire_keeps (fields : list (string * value)) (k : string) (x : value) :
  lookup k fields = Some x -> x <> VUndef ->
  field (on_wire (VObj fields)) k = on_wire x
  /\ has_key (on_wire (VObj fields)) k = true.
Proof.
  intros H Hx. induction fields as [|[k' v] rest IH]; [discriminate H|].
  cbn [lookup] in H. destruct (k =? k')%string eqn:Hk.
  - injection H as ->. destruct x; try congruence;
      cbn [on_wire field has_key lookup]; rewrite Hk; auto.
  - specialize (IH H). cbn [on_wire field has_key] in *.
    destruct v; cbn [lookup]; try rewrite Hk; exact IH.
Qed.

Lemma js_or_null_defined (x : value) : js_or x VNull <> VUndef.
Proof.
  unfold js_or. destruct x as [| |b|n|s|items|fields]; cbn; try discriminate.
  - destruct b; discriminate.
  - destruct (n =? 0); discriminate.
  - destruct s; discriminate.
Qed.

(** C7, as the code has it. In a shaped race every session key and the
    top-level [time] are present, also after serialisation; each holds
    the upstream value unchanged when that value is truthy (any object
    or array, a non-empty string, [true], a number other than zero) and
    [null] otherwise: for a missing field, [null] and the empty string,
    and also for [false] and [0]. *)
Theorem sessions_copied_or_null (race shaped : value) :
  shape_race race = Ok shaped ->
  (forall K k, In (K, k) session_fields ->
     has_key (field shaped "sessions") k = true
     /\ has_key (field (on_wire shaped) "sessions") k = true
     /\ field (field shaped "sessions") k
        = if truthy (field race K) then field race K else VNull)
  /\ has_key shaped "time" = true
  /\ has_key (on_wire shaped) "time" = true
  /\ field shaped "time"
     = if truthy (field race "time") then field race "time" else VNull.
Proof.
  intro H. apply shape_race_Ok in H as [_ ->]. unfold race_record.
  split; [|split; [reflexivity|split; [|reflexivity]]].
  - intros K k HIn.
    split; [|split].
    + cbn in HIn. decompose [or] HIn; try contradiction;
        match goal with E : (_, _) = (_, _) |- _ => injection E as <- <- end;
        reflexivity.
    + match goal with
      | |- has_key (field (on_wire (VObj ?fs)) "sessions") k = true =>
          destruct (on_wire_keeps fs "sessions"
                      (VObj
                         [ ("firstPractice", js_or (field race "FirstPractice") VNull);
                           ("secondPractice", js_or (field race "SecondPractice") VNull);
                           ("thirdPractice", js_or (field race "ThirdPractice") VNull);
                           ("qualifying", js_or (field race "Qualifying") VNull);
                           ("sprint", js_or (field race "Sprint") VNull) ])
                      eq_refl) as [-> _]; [discriminate|]
      end.
      cbn in HIn. decompose [or] HIn; try contradiction;
        match goal with E : (_, _) = (_, _) |- _ => injection E as <- <- end;
        (eapply on_wire_keeps; [reflexivity|apply js_or_null_defined]).
    + cbn in HIn. decompose [or] HIn; try contradiction;
        match goal with E : (_, _) = (_, _) |- _ => injection E as <- <- end;
        reflexivity.
  - eapply on_wire_keeps; [reflexivity|apply js_or_null_defined].
Qed.

(** ** The properties at sample inputs *)

Lemma optional_failure_is_swallowed_2024 :
  let upstream :=
    two_sources (Responded 200 (Ok (calendar_document "2024" [bahrain])))
      internal_server_error in
  let res := reply_of upstream (handle 2026 Calendar 2026 "2024") in
  status res = 200
  /\ field (field (body res) "calendar") "totalRaces" = VNum 1
  /\ (exists shaped,
        field (field (body res) "calendar") "races" = VArr shaped
        /\ List.length shaped = 1%nat)
  /\ field (body res) "openf1Data" = VNull
  /\ has_key (on_wire (body res)) "openf1Data" = true.
Proof.
  apply (optional_failure_is_swallowed 2026 2026 "2024" _ 2024 200
           (calendar_document "2024" [bahrain]) [bahrain]);
    try reflexivity.
  unfold OPENF1_MIN_YEAR. lia.
Defined.

Lemma no_optional_fetch_for_2022 :
  let upstream :=
    two_sources (Responded 200 (Ok (calendar_document "2022" [bahrain])))
      internal_server_error in
  optional_calls (trace_of upstream (handle 2026 Calendar 2026 "2022")) = 0%nat
  /\ field (field (body (reply_of upstream (handle 2026 Calendar 2026 "2022")))
              "sources") "openf1" = VNull.
Proof.
  intro upstream.
  destruct (no_optional_fetch_before_2023 2026 2026 "2022" upstream 2022) as [H1 H2].
  - reflexivity.
  - unfold OPENF1_MIN_YEAR. lia.
  - split; [exact H1|]. apply H2. reflexivity.
Defined.

Lemma upstream_404_is_mirrored :
  let upstream :=
    two_sources (Responded 404 (Ok VNull)) (Responded 200 (Ok (VArr []))) in
  status (reply_of upstream (handle 2026 Calendar 2026 "2024")) = 404
  /\ (exists text,
        field (body (reply_of upstream (handle 2026 Calendar 2026 "2024"))) "error"
        = VStr text)
  /\ trace_of upstream (handle 2026 Calendar 2026 "2024")
     = [Fetched (mandatory_url Calendar "2024") []]
  /\ match received (reply_of upstream (handle 2026 Calendar 2026 "2024")) with
     | Some sent => 404 <> 304 /\ has_key sent "error" = true
     | None => 404 = 304
     end.
Proof.
  apply (upstream_status_is_mirrored 2026 2026 Calendar "2024" _ 404 (Ok VNull));
    try reflexivity. lia.
Defined.

(** C4 at a mandatory response 304: the status is mirrored and
    [res.json] gets its body, but the client receives none. *)
Lemma mirrored_304_has_no_body :
  let upstream := two_sources not_modified internal_server_error in
  validateYear 2026 "2024" = Valid
  /\ upstream (mandatory_url Calendar "2024") = not_modified
  /\ ok 304 = false
  /\ status (reply_of upstream (handle 2026 Calendar 2026 "2024")) = 304
  /\ field (body (reply_of upstream (handle 2026 Calendar 2026 "2024"))) "error"
     = VStr "Erro ao buscar dados da Ergast API"
  /\ received (reply_of upstream (handle 2026 Calendar 2026 "2024")) = None.
Proof. repeat split. Qed.

(** C5 at [{}]. The mandatory source answers 200 with a document that
    has no [MRData]: reading [mrData.RaceTable] throws and the answer is
    500, where a 404 is expected. *)
Theorem calendar_without_MRData_is_500 :
  let upstream := two_sources (Responded 200 (Ok empty_document)) internal_server_error in
  is_json empty_document = true
  /\ validateYear 2026 "2024" = Valid
  /\ get empty_document "MRData" = Ok VUndef
  /\ run upstream (handle 2026 Calendar 2026 "2024")
     = ([ Fetched "https://ergast.com/api/f1/2024.json" [];
          Reported "Erro ao processar requisição:"
            (Err "Cannot read properties of undefined (reading 'RaceTable')") ],
        Reply 500
          (VObj [ ("error", VStr "Erro interno do servidor");
                  ("message",
                    VStr "Cannot read properties of undefined (reading 'RaceTable')") ])).
Proof. repeat split. Qed.

(** C6 at an empty [Drivers] array: the drivers route answers 200 with
    no driver, not 404. *)
Lemma empty_drivers_is_200 :
  let upstream :=
    two_sources (Responded 200 (Ok (drivers_document "2024" []))) internal_server_error in
  is_json (drivers_document "2024" []) = true
  /\ validateYear 2026 "2024" = Valid
  /\ container Drivers (drivers_document "2024" []) = Ok (VArr [])
  /\ reply_of upstream (handle 2026 Drivers 2026 "2024")
     = Reply 200
         (VObj [ ("season", VStr "2024");
                 ("totalDrivers", VNum 0);
                 ("drivers", VArr []) ])
  /\ status (reply_of upstream (handle 2026 Drivers 2026 "2024")) <> 404.
Proof. repeat split. discriminate. Qed.

Lemma no_data_classification_samples :
  status (reply_of
            (two_sources (Responded 200 (Ok (standings_document [])))
               internal_server_error)
            (handle 2026 DriverStandings 2026 "2022")) = 404
  /\ status (reply_of
               (two_sources (Responded 200 (Ok empty_document)) internal_server_error)
               (handle 2026 ConstructorStandings 2026 "2022")) = 404
  /\ status (reply_of
               (two_sources (Responded 200 (Ok (drivers_document "2024" [])))
                  internal_server_error)
               (handle 2026 Drivers 2026 "2024")) = 200.
Proof.
  split; [|split].
  - apply (no_data_classification 2026 2026 DriverStandings "2022" _ 200
             (standings_document []));
      try reflexivity; [discriminate|now right].
  - apply (no_data_classification 2026 2026 ConstructorStandings "2022" _ 200
             empty_document);
      try reflexivity; [discriminate|now left].
  - apply (no_data_classification 2026 2026 Drivers "2024" _ 200
             (drivers_document "2024" []));
      try reflexivity. discriminate.
Defined.

(** C7 at a first practice sent as [false]: the field is present
    upstream, and the shaped record holds [null] in its place. *)
Lemma false_session_becomes_null :
  is_json bahrain_false_practice = true
  /\ has_key bahrain_false_practice "FirstPractice" = true
  /\ field bahrain_false_practice "FirstPractice" = VBool false
  /\ exists shaped,
       shape_race bahrain_false_practice = Ok shaped
       /\ field (field shaped "sessions") "firstPractice" = VNull
       /\ field (field shaped "sessions") "firstPractice"
          <> field bahrain_false_practice "FirstPractice".
Proof.
  repeat split. eexists. split; [reflexivity|]. split; [reflexivity|discriminate].
Qed.

Lemma sessions_of_bahrain :
  (forall K k, In (K, k) session_fields ->
     has_key (field (race_record bahrain) "sessions") k = true
     /\ has_key (field (on_wire (race_record bahrain)) "sessions") k = true
     /\ field (field (race_record bahrain) "sessions") k
        = if truthy (field bahrain K) then field bahrain K else VNull)
  /\ has_key (race_record bahrain) "time" = true
  /\ has_key (on_wire (race_record bahrain)) "time" = true
  /\ field (race_record bahrain) "time"
     = if truthy (field bahrain "time") then field bahrain "time" else VNull.
Proof.
  apply (sessions_copied_or_null bahrain (race_record bahrain)). reflexivity.
Defined.

Lemma calendar_count_and_order_2024 :
  let upstream :=
    two_sources (Responded 200 (Ok (calendar_document "2024" [bahrain; jeddah])))
      internal_server_error in
  field (field (body (reply_of upstream (handle 2026 Calendar 2026 "2024")))
           "calendar") "races" = VArr [race_record bahrain; race_record jeddah]
  /\ field (field (body (reply_of upstream (handle 2026 Calendar 2026 "2024")))
              "calendar") "totalRaces" = VNum 2
  /\ field (race_record bahrain) "round" = VStr "1"
  /\ field (race_record jeddah) "round" = VStr "2".
Proof.
  intro upstream.
  destruct (calendar_count_and_order 2026 2026 "2024" upstream eq_refl)
    as (st & data & rs & shaped & Hup & Hpath & Hraces & Htotal & Hlen & Hall).
  cbv in Hup. injection Hup as <- <-.
  cbv in Hpath. injection Hpath as <-.
  inversion Hall as [|r1 s1 l1 t1 H1 Hall1]; subst.
  inversion Hall1 as [|r2 s2 l2 t2 H2 Hall2]; subst.
  inversion Hall2; subst.
  cbv in H1. injection H1 as <-. cbv in H2. injection H2 as <-.
  rewrite Hraces, Htotal. repeat split.
Defined.

Lemma race_without_location_sample :
  let upstream :=
    two_sources
      (Responded 200 (Ok (calendar_document "2024" [bahrain; race_without_location])))
      (Responded 200 (Ok (VArr []))) in
  status (reply_of upstream (handle 2026 Calendar 2026 "2024")) = 500
  /\ optional_calls (trace_of upstream (handle 2026 Calendar 2026 "2024")) = 0%nat.
Proof.
  apply (race_without_location_is_500 2026 2026 "2024" _ 200
           (calendar_document "2024" [bahrain; race_without_location])
           [bahrain; race_without_location]);
    reflexivity.
Defined.

(** * Further properties *)

(** ** Tokens that pass validation *)

Lemma valid_token_shape (startYear : Z) (year : string) :
  validateYear startYear year = Valid ->
  year = "current"
  \/ ((year =? "current")%string = false
      /\ test_four_digits year = true
      /\ exists n, parseInt year = Some n /\ F1_MIN_YEAR <= n <= F1_MAX_YEAR startYear).
Proof.
  intro H. revert H.
  unfold validateYear. cbv zeta. destruct (year =? "current")%string eqn:Hc.
  - left. now apply String.eqb_eq.
  - right. split; [reflexivity|]. revert H.
    destruct (parseInt year) as [n|]; cbn [isNaN orb]; [|intro H; discriminate H].
    destruct (test_four_digits year); cbn [negb]; [|intro H; discriminate H].
    cbn [num_lt num_gt].
    destruct (n <? F1_MIN_YEAR) eqn:Hlo; cbn [orb]; [intro H; discriminate H|].
    destruct (n >? F1_MAX_YEAR startYear) eqn:Hhi; [intro H; discriminate H|].
    intros _. split; [reflexivity|]. exists n. split; [reflexivity|].
    apply Z.ltb_ge in Hlo. rewrite Z.gtb_ltb in Hhi. apply Z.ltb_ge in Hhi. lia.
Qed.

Lemma digit_unreserved (c : ascii) : is_digit c = true -> unreserved c = true.
Proof.
  destruct c as [[] [] [] [] [] [] [] []]; vm_compute; intro H;
    try reflexivity; discriminate H.
Qed.

Lemma digit_in_digits (c : ascii) : is_digit c = true -> In c digits.
Proof.
  destruct c as [[] [] [] [] [] [] [] []]; vm_compute; intro H;
    try discriminate H; tauto.
Qed.

Lemma prints_back_holds : prints_back = true.
Proof. vm_compute. reflexivity. Qed.

Lemma four_digits_print_back (a b c d : ascii) :
  is_digit a = true -> is_digit b = true -> is_digit c = true -> is_digit d = true ->
  1950 <= value4 a b c d ->
  string_of_Z (value4 a b c d)
  = String a (String b (String c (String d EmptyString))).
Proof.
  intros Ha Hb Hc Hd Hv. pose proof prints_back_holds as H. unfold prints_back in H.
  rewrite forallb_forall in H. specialize (H a (digit_in_digits a Ha)).
  rewrite forallb_forall in H. specialize (H b (digit_in_digits b Hb)).
  rewrite forallb_forall in H. specialize (H c (digit_in_digits c Hc)).
  rewrite forallb_forall in H. specialize (H d (digit_in_digits d Hd)).
  apply Z.leb_le in Hv. rewrite Hv in H. cbn [implb] in H.
  now apply String.eqb_eq.
Qed.

Lemma parseInt_four_digits (a b c d : ascii) :
  is_digit a = true -> is_digit b = true -> is_digit c = true -> is_digit d = true ->
  parseInt (String a (String b (String c (String d EmptyString))))
  = Some (value4 a b c d).
Proof.
  unfold is_digit, value4. intros Ha Hb Hc Hd.
  destruct (digit_of a) as [x|] eqn:Ea; [|discriminate Ha].
  destruct (digit_of b) as [y|] eqn:Eb; [|discriminate Hb].
  destruct (digit_of c) as [z|] eqn:Ec; [|discriminate Hc].
  destruct (digit_of d) as [w|] eqn:Ed; [|discriminate Hd].
  rewrite (parseInt_digit_first a x _ Ea). cbn [leading_digits].
  rewrite Ea, Eb, Ec, Ed. f_equal. lia.
Qed.

(** X1. A token that [validateYear] rejects is answered on every route
    with status 400 and the validator's message as [error], before any
    fetch or log. *)
Theorem invalid_year_is_400 (startYear now : Z) (r : route) (year : string)
  (upstream : string -> fetch_result) (msg : string) :
  validateYear startYear year = Invalid msg ->
  run upstream (handle startYear r now year)
  = ([], Reply 400 (VObj [ ("error", VStr msg) ])).
Proof.
  intro H. destruct r; cbn [handle];
    unfold calendar, drivers, constructors, driver_standings,
      constructor_standings, single_source;
    now rewrite H.
Qed.

(** X3. [encodeURIComponent] leaves every token that passes validation
    as it is, so the URL of the mandatory source carries the token
    itself. *)
Theorem valid_token_is_not_encoded (startYear : Z) (year : string) :
  validateYear startYear year = Valid ->
  encodeURIComponent year = year
  /\ ergast_calendar_url year = ("https://ergast.com/api/f1/" ++ year ++ ".json")%string.
Proof.
  intro H. assert (E : encodeURIComponent year = year).
  { destruct (valid_token_shape _ _ H) as [-> | (_ & Ht & _)]; [reflexivity|].
    destruct year as [|a [|b [|c [|d [|e r]]]]]; try discriminate Ht.
    cbn [test_four_digits] in Ht. rewrite !andb_true_iff in Ht.
    destruct Ht as [[[Ha Hb] Hc] Hd]. cbn [encodeURIComponent].
    now rewrite !digit_unreserved by assumption. }
  split; [exact E|]. unfold ergast_calendar_url. now rewrite E.
Qed.

(** X10. The year asked of OpenF1 is the year of the request: for a
    token of four digits the number printed into the URL is the token
    again, for [current] it is the calendar year at the time of the
    request. *)
Theorem openf1_year_is_token (startYear now : Z) (year : string) :
  validateYear startYear year = Valid ->
  openf1_url (requested_year now year)
  = ("https://api.openf1.org/v1/meetings?year="
     ++ (if (year =? "current")%string then string_of_Z now else year))%string.
Proof.
  intro H. unfold openf1_url, requested_year. f_equal.
  destruct (valid_token_shape _ _ H) as [-> | (Hc & Ht & n & Hp & Hn)];
    [reflexivity|].
  rewrite Hc.
  destruct year as [|a [|b [|c [|d [|e r]]]]]; try discriminate Ht.
  cbn [test_four_digits] in Ht. rewrite !andb_true_iff in Ht.
  destruct Ht as [[[Ha Hb] Hc'] Hd].
  rewrite (parseInt_four_digits a b c d Ha Hb Hc' Hd) in Hp |- *.
  injection Hp as <-. cbn [string_of_number].
  apply four_digits_print_back; auto. unfold F1_MIN_YEAR in Hn. lia.
Qed.

(** ** Failures of the mandatory source *)

(** X2. When the fetch to the mandatory source is rejected, or its 2xx
    body does not parse, every route logs the error once and answers
    with status 500, the fixed text and the message of the error; no
    other request is made. *)
Theorem mandatory_failure_is_500 (startYear now : Z) (r : route) (year : string)
  (upstream : string -> fetch_result) (e : error) :
  validateYear startYear year = Valid ->
  upstream (mandatory_url r year) = Rejected e
  \/ (exists st, ok st = true
                 /\ upstream (mandatory_url r year) = Responded st (Throw e)) ->
  run upstream (handle startYear r now year)
  = ([ Fetched (mandatory_url r year) []; Reported (catch_text r) e ],
     Reply 500 (internal_error_body e)).
Proof.
  intros Hvalid [Hup | (st & Hok & Hup)];
    destruct r; cbn [handle mandatory_url catch_text] in *;
    unfold calendar, drivers, constructors, driver_standings,
      constructor_standings, single_source;
    rewrite Hvalid; cbn [run]; rewrite Hup; try rewrite Hok; reflexivity.
Qed.

(** ** The requests a handler makes *)

Lemma calendar_answer_trace (upstream : string -> fetch_result)
  (year : string) (mrData races : value) (requestedYear : option Z)
  (openf1Data : value) :
  fetches (trace_of upstream
             (calendar_answer year mrData races requestedYear openf1Data))
  = 0%nat.
Proof.
  unfold calendar_answer.
  destruct (path mrData ["RaceTable"; "season"]) as [season|e]; cbn [bind attempt];
    [|reflexivity].
  destruct (get races "length") as [n|e]; reflexivity.
Qed.

(** The trace of the optional step: the fetch when the year asks for
    it, what the [catch] logs, then the rest of the handler. *)
Lemma calendar_openf1_trace (upstream : string -> fetch_result)
  (requestedYear : option Z) (k : value -> handler) :
  exists openf1Data,
    trace_of upstream (calendar_openf1 requestedYear k)
    = ((if num_ge requestedYear OPENF1_MIN_YEAR
        then Fetched (openf1_url requestedYear) [ ("Accept", "application/json") ]
             :: optional_log (upstream (openf1_url requestedYear))
        else [])
       ++ trace_of upstream (k openf1Data))%list
    /\ reply_of upstream (calendar_openf1 requestedYear k)
       = reply_of upstream (k openf1Data)
    /\ openf1Data
       = (if num_ge requestedYear OPENF1_MIN_YEAR then
            match upstream (openf1_url requestedYear) with
            | Responded st (Ok v) => if ok st then v else VNull
            | _ => VNull
            end
          else VNull).
Proof.
  unfold calendar_openf1. destruct (num_ge requestedYear OPENF1_MIN_YEAR).
  - rewrite trace_Fetch, reply_Fetch.
    destruct (upstream (openf1_url requestedYear)) as [e|st [v|e]];
      cbn [optional_log].
    + exists VNull. now rewrite trace_ConsoleWarn, reply_ConsoleWarn.
    + destruct (ok st); [exists v|exists VNull]; repeat split.
    + destruct (ok st); exists VNull; [|repeat split].
      now rewrite trace_ConsoleWarn, reply_ConsoleWarn.
  - exists VNull. repeat split.
Qed.

Lemma fetches_app (t u : list event) :
  fetches (t ++ u) = (fetches t + fetches u)%nat.
Proof. unfold fetches. now rewrite filter_app, length_app. Qed.

Lemma optional_calls_app (t u : list event) :
  optional_calls (t ++ u) = (optional_calls t + optional_calls u)%nat.
Proof. unfold optional_calls. now rewrite filter_app, length_app. Qed.

Lemma optional_log_no_fetch (r : fetch_result) :
  fetches (optional_log r) = 0%nat /\ optional_calls (optional_log r) = 0%nat.
Proof.
  destruct r as [e|st [v|e]]; cbn [optional_log]; try destruct (ok st); split;
    reflexivity.
Qed.

Lemma single_source_trace (startYear : Z) (year resource t1 t2 : string)
  (answer : value -> result response) (upstream : string -> fetch_result) :
  let trace := trace_of upstream (single_source startYear year resource t1 t2 answer) in
  (trace = [] \/ exists rest, trace = Fetched (ergast_url year resource) [] :: rest)
  /\ (fetches trace <= 1)%nat
  /\ optional_calls trace = 0%nat.
Proof.
  unfold single_source. destruct (validateYear startYear year); cbn zeta.
  2:{ cbn. auto. }
  rewrite trace_Fetch. split; [right; eauto|].
  destruct (upstream (ergast_url year resource)) as [e|st [data|e]].
  - cbn. auto.
  - destruct (ok st); cbn [negb bind]; [|cbn; auto].
    destruct (answer data); cbn; auto.
  - destruct (ok st); cbn; auto.
Qed.

(** X4. A request makes at most two fetches on the calendar route and
    at most one on the others; the first is always the one to the
    mandatory source, without headers; only the calendar route ever
    asks OpenF1, and at most once. *)
Theorem fetch_budget (startYear now : Z) (r : route) (year : string)
  (upstream : string -> fetch_result) :
  let trace := trace_of upstream (handle startYear r now year) in
  (trace = [] \/ exists rest, trace = Fetched (mandatory_url r year) [] :: rest)
  /\ (fetches trace <= match r with Calendar => 2 | _ => 1 end)%nat
  /\ (optional_calls trace <= match r with Calendar => 1 | _ => 0 end)%nat.
Proof.
  destruct r; cbn [handle mandatory_url];
    try (unfold drivers, constructors, driver_standings, constructor_standings;
         match goal with
         | |- context [single_source ?s ?y ?res ?t1 ?t2 ?a] =>
             destruct (single_source_trace s y res t1 t2 a upstream) as (H1 & H2 & H3)
         end;
         cbn zeta; rewrite H3; auto).
  unfold calendar. destruct (validateYear startYear year); cbn zeta.
  2:{ cbn. auto. }
  rewrite trace_Fetch. split; [right; eauto|].
  destruct (upstream (ergast_calendar_url year)) as [e|st [data|e]].
  - cbn. auto.
  - destruct (ok st); cbn [negb bind]; [|cbn; auto].
    destruct (shape_calendar data) as [[|mrData races]|e]; cbn [attempt];
      try (cbn; auto; fail).
    destruct (calendar_openf1_trace upstream (requested_year now year)
                (calendar_answer year mrData races (requested_year now year)))
      as (v & -> & _ & _).
    change (Fetched (ergast_calendar_url year) [] :: ?t)
      with ([Fetched (ergast_calendar_url year) []] ++ t)%list.
    rewrite !fetches_app, !optional_calls_app.
    rewrite calendar_answer_trace, calendar_answer_no_fetch.
    destruct (num_ge (requested_year now year) OPENF1_MIN_YEAR).
    + change (?a :: optional_log ?x) with ([a] ++ optional_log x)%list.
      rewrite fetches_app, optional_calls_app.
      destruct (optional_log_no_fetch (upstream (openf1_url (requested_year now year))))
        as [-> ->].
      cbn. auto.
    + cbn. auto.
  - destruct (ok st); cbn; auto.
Qed.

(** ** The calendar answer in full *)

Lemma shape_calendar_fields (data : value) (rs : list value) :
  path data ["MRData"; "RaceTable"; "Races"] = Ok (VArr rs) ->
  exists fields,
    field (field data "MRData") "RaceTable" = VObj fields
    /\ field (VObj fields) "Races" = VArr rs
    /\ get (field data "MRData") "RaceTable" = Ok (VObj fields)
    /\ shape_calendar data
       = (shaped <- mapM shape_race rs ;;
          Ok (Races (field data "MRData") (VArr shaped))).
Proof.
  intro H.
  destruct (path3_array data "MRData" "RaceTable" "Races" rs eq_refl H)
    as (mr & fields & Emr & Ert & Ec).
  pose proof (get_Ok_field data "MRData" mr eq_refl Emr) as ->.
  exists fields. split; [|split; [|split; [exact Ert|]]].
  - symmetry. exact (get_Ok_field _ "RaceTable" _ eq_refl Ert).
  - symmetry. exact (get_Ok_field _ "Races" _ eq_refl Ec).
  - unfold shape_calendar. rewrite Emr. cbn [bind path]. rewrite Ert. cbn [bind].
    rewrite Ec. cbn [bind truthy negb js_map].
    destruct (mapM shape_race rs); reflexivity.
Qed.

(** The whole run of a calendar request whose mandatory source delivers
    an array of races that all have their location. *)
Lemma calendar_run_shaped (startYear now : Z) (year : string)
  (upstream : string -> fetch_result) (st : Z) (data : value)
  (rs : list value) :
  validateYear startYear year = Valid ->
  upstream (ergast_calendar_url year) = Responded st (Ok data) ->
  ok st = true ->
  path data ["MRData"; "RaceTable"; "Races"] = Ok (VArr rs) ->
  forallb has_location rs = true ->
  let requestedYear := requested_year now year in
  let wanted := num_ge requestedYear OPENF1_MIN_YEAR in
  exists shaped,
    mapM shape_race rs = Ok shaped
    /\ trace_of upstream (calendar startYear now year)
       = Fetched (ergast_calendar_url year) []
         :: (if wanted
             then Fetched (openf1_url requestedYear) [ ("Accept", "application/json") ]
                  :: optional_log (upstream (openf1_url requestedYear))
             else [])
    /\ reply_of upstream (calendar startYear now year)
       = Reply 200
           (VObj
             [ ("calendar", VObj
                 [ ("requestedYear",
                     js_or (field (field (field data "MRData") "RaceTable") "season")
                       (VStr year));
                   ("totalRaces", VNum (Z.of_nat (List.length shaped)));
                   ("races", VArr shaped) ]);
               ("openf1Data",
                 if wanted then
                   match upstream (openf1_url requestedYear) with
                   | Responded st' (Ok v) => if ok st' then v else VNull
                   | _ => VNull
                   end
                 else VNull);
               ("sources", VObj
                 [ ("ergast", VStr (ergast_calendar_url year));
                   ("openf1",
                     if wanted then VStr (openf1_url requestedYear) else VNull) ]) ]).
Proof.
  intros Hvalid Hup Hok Hpath Hloc requestedYear wanted.
  destruct (forallb_has_location_shaped rs Hloc) as (shaped & Hmap & _).
  exists shaped. split; [exact Hmap|].
  destruct (shape_calendar_fields data rs Hpath) as (fields & Hf & _ & Hrt & Hshape).
  unfold calendar. rewrite Hvalid, trace_Fetch, reply_Fetch, Hup, Hok.
  cbn [negb bind]. rewrite Hshape, Hmap. cbn [bind attempt].
  destruct (calendar_openf1_trace upstream (requested_year now year)
              (calendar_answer year (field data "MRData") (VArr shaped)
                 (requested_year now year)))
    as (v & -> & -> & ->).
  rewrite (calendar_answer_sent _ _ fields _ _ _ Hrt), Hf.
  fold requestedYear. fold wanted. split; [|reflexivity].
  unfold trace_of. cbn [run fst]. now rewrite app_nil_r.
Qed.

(** X5. When OpenF1 answers a calendar request for 2023 or later with a
    2xx status and a body that parses, that body is handed on unchanged
    as [openf1Data], and [sources.openf1] names the URL that was
    asked. *)
Theorem optional_success_passes_through (startYear now : Z) (year : string)
  (upstream : string -> fetch_result) (y st st' : Z) (data v : value)
  (rs : list value) :
  validateYear startYear year = Valid ->
  requested_year now year = Some y ->
  OPENF1_MIN_YEAR <= y ->
  upstream (ergast_calendar_url year) = Responded st (Ok data) ->
  ok st = true ->
  path data ["MRData"; "RaceTable"; "Races"] = Ok (VArr rs) ->
  forallb has_location rs = true ->
  upstream (openf1_url (Some y)) = Responded st' (Ok v) ->
  ok st' = true ->
  status (reply_of upstream (handle startYear Calendar now year)) = 200
  /\ field (body (reply_of upstream (handle startYear Calendar now year)))
       "openf1Data" = v
  /\ field (field (body (reply_of upstream (handle startYear Calendar now year)))
              "sources") "openf1" = VStr (openf1_url (Some y)).
Proof.
  intros Hvalid Hyear Hy Hup Hok Hpath Hloc Hup' Hok'. cbn [handle].
  destruct (calendar_run_shaped startYear now year upstream st data rs
              Hvalid Hup Hok Hpath Hloc) as (shaped & _ & _ & ->).
  rewrite Hyear. cbn [num_ge].
  assert (Hge : (y >=? OPENF1_MIN_YEAR) = true) by now apply Z.geb_le.
  rewrite Hge, Hup', Hok'. repeat split.
Qed.

(** X6. For a calendar request whose mandatory source delivers its
    races, the effects are: the fetch to Ergast; then, exactly when the
    resolved year is 2023 or later, one fetch to OpenF1 with the
    [Accept] header; then one [console.warn] with the message of the
    error if that fetch was rejected or its 2xx body did not parse, and
    nothing if its status was not 2xx. *)
Theorem calendar_effects (startYear now : Z) (year : string)
  (upstream : string -> fetch_result) (st : Z) (data : value)
  (rs : list value) :
  validateYear startYear year = Valid ->
  upstream (ergast_calendar_url year) = Responded st (Ok data) ->
  ok st = true ->
  path data ["MRData"; "RaceTable"; "Races"] = Ok (VArr rs) ->
  forallb has_location rs = true ->
  trace_of upstream (handle startYear Calendar now year)
  = Fetched (ergast_calendar_url year) []
    :: (if num_ge (requested_year now year) OPENF1_MIN_YEAR
        then Fetched (openf1_url (requested_year now year))
               [ ("Accept", "application/json") ]
             :: optional_log (upstream (openf1_url (requested_year now year)))
        else []).
Proof.
  intros Hvalid Hup Hok Hpath Hloc. cbn [handle].
  now destruct (calendar_run_shaped startYear now year upstream st data rs
                  Hvalid Hup Hok Hpath Hloc) as (shaped & _ & -> & _).
Qed.

(** X7. In every calendar answer with status 200, [requestedYear] is
    the season the mandatory source names, or the token of the request
    when that season is missing or falsy; [sources.ergast] is the URL
    asked of the mandatory source; [sources.openf1] is the OpenF1 URL
    when the resolved year is 2023 or later and [null] before. *)
Theorem calendar_success_fields (startYear now : Z) (year : string)
  (upstream : string -> fetch_result) :
  status (reply_of upstream (handle startYear Calendar now year)) = 200 ->
  exists st data,
    upstream (ergast_calendar_url year) = Responded st (Ok data)
    /\ field (field (body (reply_of upstream (handle startYear Calendar now year)))
                "calendar") "requestedYear"
       = (let season := field (field (field data "MRData") "RaceTable") "season" in
          if truthy season then season else VStr year)
    /\ field (field (body (reply_of upstream (handle startYear Calendar now year)))
                "sources") "ergast" = VStr (ergast_calendar_url year)
    /\ field (field (body (reply_of upstream (handle startYear Calendar now year)))
                "sources") "openf1"
       = (if num_ge (requested_year now year) OPENF1_MIN_YEAR
          then VStr (openf1_url (requested_year now year))
          else VNull).
Proof.
  cbn [handle]. unfold calendar.
  destruct (validateYear startYear year); [|discriminate].
  rewrite reply_Fetch.
  destruct (upstream (ergast_calendar_url year)) as [e|st [data|e]]; [discriminate| |].
  - destruct (ok st) eqn:Hok; cbn [negb bind].
    2:{ cbn. intro H. now apply ok_not_200 in Hok. }
    destruct (shape_calendar data) as [[|mrData races]|e] eqn:Hshape; cbn [attempt];
      try discriminate.
    destruct (shape_calendar_Races _ _ _ Hshape)
      as (fields & rs & shaped & Hmr & Hrt & Hc & Hmap & ->).
    destruct (calendar_openf1_continues upstream (requested_year now year)
                (calendar_answer year mrData (VArr shaped) (requested_year now year)))
      as [v ->].
    rewrite (calendar_answer_sent _ _ fields _ _ _ Hrt). intros _.
    exists st, data. split; [reflexivity|].
    pose proof (get_Ok_field data "MRData" mrData eq_refl Hmr) as ->.
    pose proof (get_Ok_field _ "RaceTable" _ eq_refl Hrt) as <-.
    repeat split.
  - destruct (ok st) eqn:Hok; cbn [negb bind attempt]; [discriminate|].
    cbn. intro H. now apply ok_not_200 in Hok.
Qed.

(** X8. An empty array of races is not a missing one: the calendar
    route answers it with status 200, [totalRaces] zero and an empty
    [races], whatever OpenF1 does. *)
Theorem empty_races_is_200 (startYear now : Z) (year : string)
  (upstream : string -> fetch_result) (st : Z) (data : value) :
  validateYear startYear year = Valid ->
  upstream (ergast_calendar_url year) = Responded st (Ok data) ->
  ok st = true ->
  path data ["MRData"; "RaceTable"; "Races"] = Ok (VArr []) ->
  status (reply_of upstream (handle startYear Calendar now year)) = 200
  /\ field (field (body (reply_of upstream (handle startYear Calendar now year)))
              "calendar") "totalRaces" = VNum 0
  /\ field (field (body (reply_of upstream (handle startYear Calendar now year)))
              "calendar") "races" = VArr [].
Proof.
  intros Hvalid Hup Hok Hpath. cbn [handle].
  destruct (calendar_run_shaped startYear now year upstream st data []
              Hvalid Hup Hok Hpath eq_refl) as (shaped & Hmap & _ & ->).
  cbn [mapM] in Hmap. injection Hmap as <-. repeat split.
Qed.

Lemma shape_calendar_not_array (data c : value) :
  path data ["MRData"; "RaceTable"; "Races"] = Ok c ->
  truthy c = true ->
  (forall rs, c <> VArr rs) ->
  exists e, shape_calendar data = Throw e.
Proof.
  intros Hpath Hc Hna. cbn [path] in Hpath. unfold shape_calendar. cbn [path].
  destruct (get data "MRData") as [mr|]; [|discriminate Hpath]. cbn [bind] in *.
  destruct (get mr "RaceTable") as [rt|]; [|discriminate Hpath]. cbn [bind] in *.
  destruct (get rt "Races") as [c'|] eqn:Ec; [|discriminate Hpath]. cbn [bind] in *.
  injection Hpath as ->.
  assert (Hrt : truthy rt = true).
  { destruct rt; cbn in Ec; try discriminate Ec; try reflexivity;
      injection Ec as <-; discriminate Hc. }
  rewrite Hrt. cbn [bind]. rewrite Hc. cbn [negb].
  destruct c as [| |b|n|s|items|fs]; try discriminate Hc; cbn [js_map bind];
    try (eexists; reflexivity).
  now destruct (Hna items).
Qed.

(** X9. The status of the calendar answer to a document the mandatory
    source delivered with a 2xx status is decided by the document
    alone: 500 when the document is [null] or has no [MRData]; 404 when
    [RaceTable] or [Races] is missing or falsy; 500 when [Races] is
    something else than an array, or an array with a record that has no
    circuit or location; 200 in every other case. *)
Theorem calendar_status_classified (startYear now : Z) (year : string)
  (upstream : string -> fetch_result) (st : Z) (data : value) :
  validateYear startYear year = Valid ->
  upstream (ergast_calendar_url year) = Responded st (Ok data) ->
  ok st = true ->
  status (reply_of upstream (handle startYear Calendar now year))
  = calendar_class data.
Proof.
  intros Hvalid Hup Hok. cbn [handle]. unfold calendar_class.
  destruct (nullish data) eqn:Hd; cbn [orb].
  { unfold calendar. rewrite Hvalid, reply_Fetch, Hup, Hok. cbn [negb bind].
    destruct data; try discriminate Hd; reflexivity. }
  destruct (nullish (field data "MRData")) eqn:Hmr.
  { now apply (calendar_MRData_absent_is_500 _ _ _ _ st data). }
  cbv zeta.
  destruct (truthy (field (field data "MRData") "RaceTable")) eqn:Hrt; cbn [negb orb].
  2:{ apply (calendar_container_absent_is_404 _ _ _ _ st data); auto. }
  destruct (truthy (field (field (field data "MRData") "RaceTable") "Races")) eqn:Hc;
    cbn [negb].
  2:{ apply (calendar_container_absent_is_404 _ _ _ _ st data); auto. }
  assert (Hpath : path data ["MRData"; "RaceTable"; "Races"]
                  = Ok (field (field (field data "MRData") "RaceTable") "Races")).
  { cbn [path]. rewrite (get_field data "MRData" Hd eq_refl). cbn [bind].
    rewrite (get_field _ "RaceTable" Hmr eq_refl). cbn [bind].
    rewrite (get_field _ "Races"); [reflexivity| |reflexivity].
    now destruct (field (field data "MRData") "RaceTable"). }
  destruct (field (field (field data "MRData") "RaceTable") "Races")
    as [| |b|n|s|rs|fs] eqn:Ec; try discriminate Hc;
    try (destruct (shape_calendar_not_array data _ Hpath Hc) as [e He];
         [intros rs'; discriminate|];
         unfold calendar; rewrite Hvalid, reply_Fetch, Hup, Hok; cbn [negb bind];
         rewrite He; reflexivity).
  destruct (forallb has_location rs) eqn:Hloc.
  - now destruct (calendar_run_shaped startYear now year upstream st data rs
                    Hvalid Hup Hok Hpath Hloc) as (shaped & _ & _ & ->).
  - unfold calendar. rewrite Hvalid, reply_Fetch, Hup, Hok. cbn [negb bind].
    destruct (shape_calendar_fields data rs Hpath) as (fields & _ & _ & _ & ->).
    destruct (mapM shape_race rs) as [shaped|e] eqn:Hmap; [|reflexivity].
    assert (forallb has_location rs = true) as Hall.
    { apply (mapM_defined shape_race has_location rs shape_race_defined). eauto. }
    congruence.
Qed.

(** ** The statuses a route answers with *)


Lemma drivers_answer_status (data : value) (r : response) :
  drivers_answer data = Ok r -> status r = 200.
Proof.
  unfold drivers_answer. intro H. split_reads H. now injection H as <-.
Qed.

Lemma constructors_answer_status (data : value) (r : response) :
  constructors_answer data = Ok r -> status r = 200.
Proof.
  unfold constructors_answer. intro H. split_reads H. now injection H as <-.
Qed.


Lemma single_source_outcome (startYear : Z) (year resource t1 t2 : string)
  (answer : value -> result response) (upstream : string -> fetch_result) :
  (forall data r, answer data = Ok r ->
     status r = 200
     \/ (status r = 404 /\ exists text, field (body r) "error" = VStr text)) ->
  let res := reply_of upstream (single_source startYear year resource t1 t2 answer) in
  (status res = 200 \/ status res = 400 \/ status res = 404 \/ status res = 500
   \/ exists st json,
        upstream (ergast_url year resource) = Responded st json
        /\ ok st = false /\ status res = st)
  /\ (status res <> 200 -> exists text, field (body res) "error" = VStr text)
  /\ (status res = 200 ->
      validateYear startYear year = Valid
      /\ exists st data,
           upstream (ergast_url year resource) = Responded st (Ok data)
           /\ ok st = true).
Proof.
  intros Hanswer. unfold single_source.
  destruct (validateYear startYear year); cbn zeta; [|fixed_outcome].
  rewrite reply_Fetch.
  destruct (upstream (ergast_url year resource)) as [e|st [data|e]] eqn:Hup;
    [fixed_outcome| |].
  - destruct (ok st) eqn:Hok; cbn [negb bind]; [|mirrored_outcome Hok].
    destruct (answer data) as [r|e] eqn:Ha; cbn [attempt]; [|fixed_outcome].
    unfold reply_of. cbn [run snd status body].
    destruct (Hanswer data r Ha) as [H | (H & text & Ht)]; rewrite H.
    + split; [auto|]. split; [congruence|]. intros _. eauto.
    + split; [auto|]. split; [eauto|discriminate].
  - destruct (ok st) eqn:Hok; cbn [negb bind attempt];
      [fixed_outcome|mirrored_outcome Hok].
Qed.


(** ** Shaping drivers, constructors and standings *)

Lemma js_map_Ok (expr : string) (v : value) (f : value -> result value)
  (x : value) :
  js_map expr v f = Ok x ->
  exists items shaped,
    v = VArr items /\ mapM f items = Ok shaped /\ x = VArr shaped.
Proof.
  destruct v as [| |b|n|s|items|fs]; cbn [js_map]; intro H; try discriminate H.
  destruct (mapM f items) as [shaped|] eqn:Hm; [|discriminate H].
  cbn [bind] in H. injection H as <-. eauto.
Qed.

Lemma shape_driver_defined (d : value) :
  negb (nullish d) = true <-> exists s, shape_driver d = Ok s.
Proof.
  rewrite negb_true_iff. split.
  - intro H. unfold shape_driver.
    repeat (rewrite get_field by (assumption || reflexivity); cbn [bind]). eauto.
  - intros [s H]. unfold shape_driver in H. split_reads H.
    eapply get_not_nullish; eauto.
Qed.

Lemma shape_constructor_defined (c : value) :
  negb (nullish c) = true <-> exists s, shape_constructor c = Ok s.
Proof.
  rewrite negb_true_iff. split.
  - intro H. unfold shape_constructor.
    repeat (rewrite get_field by (assumption || reflexivity); cbn [bind]). eauto.
  - intros [s H]. unfold shape_constructor in H. split_reads H.
    eapply get_not_nullish; eauto.
Qed.

Lemma shape_team_defined (c : value) :
  negb (nullish c) = true <-> exists s, shape_team c = Ok s.
Proof.
  rewrite negb_true_iff. split.
  - intro H. unfold shape_team.
    repeat (rewrite get_field by (assumption || reflexivity); cbn [bind]). eauto.
  - intros [s H]. unfold shape_team in H. split_reads H.
    eapply get_not_nullish; eauto.
Qed.

Lemma item_shape_defined (r : route) (x : value) :
  negb (nullish x) = true <-> exists s, item_shape r x = Ok s.
Proof.
  destruct r; cbn [item_shape];
    first [apply shape_constructor_defined | apply shape_driver_defined].
Qed.

Lemma shape_driver_standing_defined (s : value) :
  entry_ok DriverStandings s = true <-> exists x, shape_driver_standing s = Ok x.
Proof.
  cbn [entry_ok]. split.
  - rewrite !andb_true_iff, !negb_true_iff. intros [[Hs Hd] Hc].
    unfold shape_driver_standing. cbn [path].
    repeat (rewrite get_field by (assumption || reflexivity); cbn [bind]).
    cbn [all_records] in Hc.
    destruct (field s "Constructors") as [| |b|n|t|cs|fs]; try discriminate Hc.
    apply (mapM_defined shape_team _ cs shape_team_defined) in Hc as [teams Ht].
    cbn [js_map]. rewrite Ht. cbn [bind]. eauto.
  - intros [x H]. unfold shape_driver_standing in H. split_reads H.
    apply path2_Ok in E3 as (Hs & Hd & _); try reflexivity.
    pose proof (get_Ok_field s "Constructors" _ eq_refl E8) as ->.
    apply js_map_Ok in E9 as (cs & teams & Hcs & Ht & _).
    rewrite Hs, Hd, Hcs. cbn [negb andb all_records].
    apply (mapM_defined shape_team _ cs shape_team_defined). eauto.
Qed.

Lemma shape_constructor_standing_defined (s : value) :
  entry_ok ConstructorStandings s = true
  <-> exists x, shape_constructor_standing s = Ok x.
Proof.
  cbn [entry_ok]. split.
  - rewrite !andb_true_iff, !negb_true_iff. intros [Hs Hc].
    unfold shape_constructor_standing. cbn [path].
    repeat (rewrite get_field by (assumption || reflexivity); cbn [bind]). eauto.
  - intros [x H]. unfold shape_constructor_standing in H. split_reads H.
    apply path2_Ok in E3 as (Hs & Hc & _); try reflexivity.
    now rewrite Hs, Hc.
Qed.

Lemma standings_shape_defined (r : route) (s : value) :
  r = DriverStandings \/ r = ConstructorStandings ->
  entry_ok r s = true <-> exists x, standings_shape r s = Ok x.
Proof.
  intros [-> | ->]; cbn [standings_shape];
    [apply shape_driver_standing_defined | apply shape_constructor_standing_defined].
Qed.

Lemma list_route_answered (startYear now : Z) (r : route) (year : string)
  (upstream : string -> fetch_result) (st : Z) (data : value) :
  r = Drivers \/ r = Constructors ->
  validateYear startYear year = Valid ->
  upstream (mandatory_url r year) = Responded st (Ok data) ->
  ok st = true ->
  reply_of upstream (handle startYear r now year)
  = reply_of upstream
      (attempt (match r with
                | Constructors => constructors_answer data
                | _ => drivers_answer data
                end)
         (fun a => Send (status a) (body a)) (internal_error (catch_text r))).
Proof.
  intros [-> | ->] Hvalid Hup Hok; cbn [handle mandatory_url catch_text] in *;
    [unfold drivers | unfold constructors];
    now rewrite (single_source_answered _ _ _ _ _ _ _ st data).
Qed.

(** What the drivers and constructors routes compute from a document. *)
Lemma list_answer (r : route) (data : value) :
  r = Drivers \/ r = Constructors ->
  match r with
  | Constructors => constructors_answer data
  | _ => drivers_answer data
  end
  = (c <- container r data ;;
     list <- js_map ("data.MRData." ++ table_key r ++ "."
                     ++ (match r with
                         | Constructors => "Constructors"
                         | _ => "Drivers"
                         end))
               c (item_shape r) ;;
     season <- path data ["MRData"; table_key r; "season"] ;;
     total <- get list "length" ;;
     Ok (Reply 200
           (VObj [ ("season", season); (count_key r, total); (list_key r, list) ]))).
Proof. intros [-> | ->]; reflexivity. Qed.

Lemma list_container_table (r : route) (data : value) (items : list value) :
  r = Drivers \/ r = Constructors ->
  container r data = Ok (VArr items) ->
  path data ["MRData"; table_key r; "season"]
  = Ok (field (field (field data "MRData") (table_key r)) "season").
Proof.
  intros Hr H.
  assert (Hp : exists k, (k =? "length")%string = false
                         /\ path data ["MRData"; table_key r; k] = Ok (VArr items)).
  { destruct Hr as [-> | ->]; cbn [container table_key] in *;
      [exists "Drivers" | exists "Constructors"]; split; (reflexivity || exact H). }
  destruct Hp as (k & Hk & Hp).
  destruct (path3_array data _ _ k items Hk Hp) as (mr & fields & E1 & E2 & _).
  cbn [path]. rewrite E1. cbn [bind]. rewrite E2. cbn [bind].
  pose proof (get_Ok_field data "MRData" mr eq_refl E1) as ->.
  assert (Ht : (table_key r =? "length")%string = false)
    by (destruct Hr as [-> | ->]; reflexivity).
  now rewrite <- (get_Ok_field _ _ _ Ht E2).
Qed.

(** X12. Every answer of the drivers and of the constructors route with
    status 200 carries the shaping of the upstream array element by
    element in the order of the source, its length as the count, and
    the season the table names. *)
Theorem list_count_and_order (startYear now : Z) (r : route) (year : string)
  (upstream : string -> fetch_result) :
  r = Drivers \/ r = Constructors ->
  status (reply_of upstream (handle startYear r now year)) = 200 ->
  exists st data items shaped,
    upstream (mandatory_url r year) = Responded st (Ok data)
    /\ container r data = Ok (VArr items)
    /\ field (body (reply_of upstream (handle startYear r now year))) (list_key r)
       = VArr shaped
    /\ field (body (reply_of upstream (handle startYear r now year))) (count_key r)
       = VNum (Z.of_nat (List.length shaped))
    /\ List.length shaped = List.length items
    /\ Forall2 (fun item s => item_shape r item = Ok s) items shaped
    /\ field (body (reply_of upstream (handle startYear r now year))) "season"
       = field (field (field data "MRData") (table_key r)) "season".
Proof.
  intros Hr H200.
  assert (Hok : validateYear startYear year = Valid
                /\ exists st data,
                     upstream (mandatory_url r year) = Responded st (Ok data)
                     /\ ok st = true).
  { destruct Hr as [-> | ->]; cbn [handle mandatory_url] in *.
    - apply (single_source_outcome startYear year "drivers"
               "Erro ao buscar dados dos pilotos" "Erro ao buscar pilotos:"
               drivers_answer upstream); [|exact H200].
      intros data a Ha. left. now apply drivers_answer_status in Ha.
    - apply (single_source_outcome startYear year "constructors"
               "Erro ao buscar dados das equipes" "Erro ao buscar equipes:"
               constructors_answer upstream); [|exact H200].
      intros data a Ha. left. now apply constructors_answer_status in Ha. }
  destruct Hok as (Hvalid & st & data & Hup & Hst).
  revert H200. rewrite (list_route_answered _ _ _ _ _ st data Hr Hvalid Hup Hst).
  rewrite (list_answer r data Hr).
  destruct (container r data) as [c|e] eqn:Hc; cbn [bind attempt]; [|discriminate].
  destruct (js_map _ c (item_shape r)) as [list|e] eqn:Hmap; cbn [bind attempt];
    [|discriminate].
  apply js_map_Ok in Hmap as (items & shaped & -> & Hm & ->).
  rewrite (list_container_table r data items Hr Hc). cbn [bind get attempt].
  intros _. exists st, data, items, shaped.
  split; [exact Hup|]. split; [exact Hc|].
  unfold reply_of. cbn [run snd body status].
  repeat split.
  - destruct Hr as [-> | ->]; reflexivity.
  - destruct Hr as [-> | ->]; reflexivity.
  - now apply mapM_length in Hm.
  - now apply mapM_Forall2.
Qed.

(** X13. The drivers and constructors routes have two outcomes for a
    document delivered with a 2xx status: 200 when the container is an
    array without [null] elements, the empty array included, and 500 in
    every other case, a missing container among them. *)
Theorem list_status_classified (startYear now : Z) (r : route) (year : string)
  (upstream : string -> fetch_result) (st : Z) (data : value) :
  r = Drivers \/ r = Constructors ->
  validateYear startYear year = Valid ->
  upstream (mandatory_url r year) = Responded st (Ok data) ->
  ok st = true ->
  status (reply_of upstream (handle startYear r now year))
  = if all_records (container r data) then 200 else 500.
Proof.
  intros Hr Hvalid Hup Hok.
  rewrite (list_route_answered _ _ _ _ _ st data Hr Hvalid Hup Hok).
  rewrite (list_answer r data Hr).
  destruct (container r data) as [c|e] eqn:Hc; cbn [bind attempt all_records];
    [|reflexivity].
  destruct c as [| |b|n|s|items|fs]; try reflexivity.
  cbn [js_map].
  destruct (forallb (fun x => negb (nullish x)) items) eqn:Hall.
  - apply (mapM_defined (item_shape r) _ items (item_shape_defined r)) in Hall
      as [shaped ->].
    cbn [bind]. rewrite (list_container_table r data items Hr Hc). reflexivity.
  - destruct (mapM (item_shape r) items) as [shaped|e] eqn:Hm; [|reflexivity].
    assert (forallb (fun x => negb (nullish x)) items = true) as Hall'.
    { apply (mapM_defined (item_shape r) _ items (item_shape_defined r)). eauto. }
    congruence.
Qed.

(** X14. A shaped driver holds [driverId], [url], the names, the date of
    birth and the nationality as they came, and [permanentNumber] and
    [code] as they came when truthy and as [null] otherwise, so that
    these two are always in the serialised answer. *)
Theorem driver_defaults (driver shaped : value) :
  shape_driver driver = Ok shaped ->
  (forall k, In k copied_driver_fields -> field shaped k = field driver k)
  /\ (forall k, In k defaulted_driver_fields ->
        field shaped k = (if truthy (field driver k) then field driver k else VNull)
        /\ has_key (on_wire shaped) k = true).
Proof.
  intro H. unfold shape_driver in H. split_reads H. injection H as <-.
  repeat match goal with
         | E : get driver ?k = Ok _ |- _ =>
             apply (get_Ok_field driver k _ eq_refl) in E; subst
         end.
  split; intros k Hk; each_key Hk; try reflexivity;
    (split; [reflexivity|]);
    (eapply on_wire_keeps; [reflexivity|apply js_or_null_defined]).
Qed.

(** X16. In both standings routes, for a document whose
    [StandingsLists] is an array with a first element, the status is
    decided by that element: 200 when it is not [null] and its entries
    are an array of entries the callback can shape, 500 otherwise: for
    a list without its entries, and for an entry without its driver,
    its constructor or its constructors. *)
Theorem standings_status_classified (startYear now : Z) (r : route)
  (year : string) (upstream : string -> fetch_result) (st : Z)
  (data first : value) (rest : list value) :
  r = DriverStandings \/ r = ConstructorStandings ->
  validateYear startYear year = Valid ->
  upstream (mandatory_url r year) = Responded st (Ok data) ->
  ok st = true ->
  standings_lists data = Ok (VArr (first :: rest)) ->
  status (reply_of upstream (handle startYear r now year))
  = standings_class r first.
Proof.
  intros Hr Hvalid Hup Hok Hl.
  rewrite (standings_route_answered _ _ _ _ _ st data Hr Hvalid Hup Hok).
  rewrite (standings_answer_first _ _ _ _ _ Hl).
  unfold standings_class, standings_body.
  assert (Hkey : (standings_key r =? "length")%string = false)
    by (destruct Hr as [-> | ->]; reflexivity).
  destruct (nullish first) eqn:Hf.
  { destruct first; try discriminate Hf; reflexivity. }
  rewrite (get_field first "season" Hf eq_refl). cbn [bind].
  rewrite (get_field first "round" Hf eq_refl). cbn [bind].
  rewrite (get_field first _ Hf Hkey). cbn [bind].
  destruct (field first (standings_key r)) as [| |b|n|s|entries|fs]; try reflexivity.
  cbn [js_map].
  destruct (forallb (entry_ok r) entries) eqn:Hall.
  - apply (mapM_defined (standings_shape r) _ entries
             (fun s => standings_shape_defined r s Hr)) in Hall as [shaped ->].
    reflexivity.
  - destruct (mapM (standings_shape r) entries) as [shaped|e] eqn:Hm; [|reflexivity].
    assert (forallb (entry_ok r) entries = true) as Hall'.
    { apply (mapM_defined (standings_shape r) _ entries
               (fun s => standings_shape_defined r s Hr)). eauto. }
    congruence.
Qed.

(** ** What a shaped race holds *)

(** A key is in the serialised object only if the object holds it with
    a value other than [undefined]. *)
Lemma on_wire_has_key (fields : list (string * value)) (k : string) :
  has_key (on_wire (VObj fields)) k = true ->
  exists x, In (k, x) fields /\ x <> VUndef.
Proof.
  induction fields as [|[k' v] rest IH]; [discriminate|].
  intro H.
  assert (Hcase : (v = VUndef /\ has_key (on_wire (VObj rest)) k = true)
                  \/ (v <> VUndef /\ (k =? k')%string = true)
                  \/ has_key (on_wire (VObj rest)) k = true).
  { destruct v; cbn [on_wire has_key lookup] in H |- *; auto;
      destruct (k =? k')%string; auto;
      right; left; split; auto; discriminate. }
  destruct Hcase as [[_ Hr] | [[Hv Hk] | Hr]].
  - destruct (IH Hr) as (x & Hin & Hx). exists x. split; [now right|exact Hx].
  - apply String.eqb_eq in Hk as ->. exists v. split; [now left|exact Hv].
  - destruct (IH Hr) as (x & Hin & Hx). exists x. split; [now right|exact Hx].
Qed.

(** X17. A shaped race holds the season, round, url, name and date of
    the upstream record as they came, the three fields of [Circuit]
    under [circuit] and the four fields of [Circuit.Location] under
    [circuit.location]. *)
Theorem race_fields_copied (race shaped : value) :
  shape_race race = Ok shaped ->
  (forall k, In k copied_race_fields -> field shaped k = field race k)
  /\ (forall k, In k circuit_fields ->
        field (field shaped "circuit") k = field (field race "Circuit") k)
  /\ (forall k, In k location_fields ->
        field (field (field shaped "circuit") "location") k
        = field (field (field race "Circuit") "Location") k).
Proof.
  intro H. apply shape_race_Ok in H as [_ ->].
  repeat split; intros k Hk; each_key Hk; reflexivity.
Qed.

(** X15. A field that [shape_race] copies as it is and that the
    upstream record does not have is in the shaped object with the
    value [undefined], and therefore not in the serialised answer: only
    [time] and the session fields get a [null] in that case.  A field
    the record does have is in the serialised answer. *)
Theorem missing_field_is_omitted (race shaped : value) (k : string) :
  shape_race race = Ok shaped ->
  In k copied_race_fields ->
  has_key shaped k = true
  /\ has_key (on_wire shaped) k
     = match field race k with VUndef => false | _ => true end.
Proof.
  intros H Hk. apply shape_race_Ok in H as [_ ->]. unfold race_record.
  split; [each_key Hk; reflexivity|].
  destruct (field race k) eqn:Hf;
    try (each_key Hk;
         (eapply on_wire_keeps; [reflexivity|rewrite Hf; discriminate])).
  apply not_true_is_false. intro Hw.
  apply on_wire_has_key in Hw as (x & Hin & Hx).
  each_key Hk; cbn in Hin; decompose [or] Hin; try contradiction;
    match goal with E : (_, _) = (_, _) |- _ => inversion E; subst end;
    congruence.
Qed.

(** ** The further properties at sample inputs *)

Lemma invalid_year_1949 :
  run (two_sources internal_server_error internal_server_error)
    (handle 2026 Calendar 2026 "1949")
  = ([], Reply 400 (VObj [ ("error", VStr "Ano deve estar entre 1950 e 2027.") ])).
Proof.
  apply (invalid_year_is_400 2026 2026 Calendar "1949"). reflexivity.
Defined.

Lemma rejected_drivers_fetch :
  run (two_sources (Rejected fetch_failed) internal_server_error)
    (handle 2026 Drivers 2026 "2024")
  = ([ Fetched "https://ergast.com/api/f1/2024/drivers.json" [];
       Reported "Erro ao buscar pilotos:" fetch_failed ],
     Reply 500
       (VObj [ ("error", VStr "Erro interno do servidor");
               ("message", VStr "fetch failed") ])).
Proof.
  apply (mandatory_failure_is_500 2026 2026 Drivers "2024"
           (two_sources (Rejected fetch_failed) internal_server_error) fetch_failed);
    [reflexivity|left; reflexivity].
Defined.

Lemma token_2024_is_not_encoded :
  encodeURIComponent "2024" = "2024"
  /\ ergast_calendar_url "2024" = "https://ergast.com/api/f1/2024.json".
Proof.
  apply (valid_token_is_not_encoded 2026 "2024"). reflexivity.
Defined.

Lemma openf1_year_2024 :
  openf1_url (requested_year 2026 "2024")
  = "https://api.openf1.org/v1/meetings?year=2024"
  /\ openf1_url (requested_year 2026 "current")
     = "https://api.openf1.org/v1/meetings?year=2026".
Proof.
  split.
  - apply (openf1_year_is_token 2026 2026 "2024"). reflexivity.
  - apply (openf1_year_is_token 2026 2026 "current"). reflexivity.
Defined.

Lemma meetings_pass_through :
  let upstream :=
    two_sources (Responded 200 (Ok (calendar_document "2024" [bahrain])))
      (Responded 200 (Ok meetings)) in
  status (reply_of upstream (handle 2026 Calendar 2026 "2024")) = 200
  /\ field (body (reply_of upstream (handle 2026 Calendar 2026 "2024")))
       "openf1Data" = meetings
  /\ field (field (body (reply_of upstream (handle 2026 Calendar 2026 "2024")))
              "sources") "openf1"
     = VStr "https://api.openf1.org/v1/meetings?year=2024".
Proof.
  apply (optional_success_passes_through 2026 2026 "2024" _ 2024 200 200
           (calendar_document "2024" [bahrain]) meetings [bahrain]);
    try reflexivity.
  unfold OPENF1_MIN_YEAR. lia.
Defined.

Lemma effects_of_2024_and_2022 :
  trace_of
    (two_sources (Responded 200 (Ok (calendar_document "2024" [bahrain])))
       (Rejected fetch_failed))
    (handle 2026 Calendar 2026 "2024")
  = [ Fetched "https://ergast.com/api/f1/2024.json" [];
      Fetched "https://api.openf1.org/v1/meetings?year=2024"
        [ ("Accept", "application/json") ];
      Warned "OpenF1 API não disponível:" "fetch failed" ]
  /\ trace_of
       (two_sources (Responded 200 (Ok (calendar_document "2024" [bahrain])))
          internal_server_error)
       (handle 2026 Calendar 2026 "2024")
     = [ Fetched "https://ergast.com/api/f1/2024.json" [];
         Fetched "https://api.openf1.org/v1/meetings?year=2024"
           [ ("Accept", "application/json") ] ]
  /\ trace_of
       (two_sources (Responded 200 (Ok (calendar_document "2022" [bahrain])))
          (Rejected fetch_failed))
       (handle 2026 Calendar 2026 "2022")
     = [ Fetched "https://ergast.com/api/f1/2022.json" [] ].
Proof.
  split; [|split].
  - exact (calendar_effects 2026 2026 "2024"
             (two_sources (Responded 200 (Ok (calendar_document "2024" [bahrain])))
                (Rejected fetch_failed))
             200 (calendar_document "2024" [bahrain]) [bahrain]
             eq_refl eq_refl eq_refl eq_refl eq_refl).
  - exact (calendar_effects 2026 2026 "2024"
             (two_sources (Responded 200 (Ok (calendar_document "2024" [bahrain])))
                internal_server_error)
             200 (calendar_document "2024" [bahrain]) [bahrain]
             eq_refl eq_refl eq_refl eq_refl eq_refl).
  - exact (calendar_effects 2026 2026 "2022"
             (two_sources (Responded 200 (Ok (calendar_document "2022" [bahrain])))
                (Rejected fetch_failed))
             200 (calendar_document "2022" [bahrain]) [bahrain]
             eq_refl eq_refl eq_refl eq_refl eq_refl).
Defined.

Lemma success_fields_of_current :
  let upstream :=
    two_sources (Responded 200 (Ok (calendar_document "2026" [bahrain])))
      internal_server_error in
  exists st data,
    upstream (ergast_calendar_url "current") = Responded st (Ok data)
    /\ field (field (body (reply_of upstream (handle 2026 Calendar 2026 "current")))
                "calendar") "requestedYear"
       = (let season := field (field (field data "MRData") "RaceTable") "season" in
          if truthy season then season else VStr "current")
    /\ field (field (body (reply_of upstream (handle 2026 Calendar 2026 "current")))
                "sources") "ergast" = VStr (ergast_calendar_url "current")
    /\ field (field (body (reply_of upstream (handle 2026 Calendar 2026 "current")))
                "sources") "openf1"
       = (if num_ge (requested_year 2026 "current") OPENF1_MIN_YEAR
          then VStr (openf1_url (requested_year 2026 "current"))
          else VNull).
Proof.
  intro upstream.
  apply (calendar_success_fields 2026 2026 "current" upstream). reflexivity.
Defined.

Lemma empty_season_2027 :
  let upstream :=
    two_sources (Responded 200 (Ok (calendar_document "2027" [])))
      internal_server_error in
  status (reply_of upstream (handle 2026 Calendar 2026 "2027")) = 200
  /\ field (field (body (reply_of upstream (handle 2026 Calendar 2026 "2027")))
              "calendar") "totalRaces" = VNum 0
  /\ field (field (body (reply_of upstream (handle 2026 Calendar 2026 "2027")))
              "calendar") "races" = VArr [].
Proof.
  apply (empty_races_is_200 2026 2026 "2027" _ 200 (calendar_document "2027" []));
    reflexivity.
Defined.

Lemma calendar_classes :
  status (reply_of
            (two_sources (Responded 200 (Ok empty_document)) internal_server_error)
            (handle 2026 Calendar 2026 "2024")) = 500
  /\ status (reply_of
               (two_sources (Responded 200 (Ok (VObj [ ("MRData", VObj []) ])))
                  internal_server_error)
               (handle 2026 Calendar 2026 "2024")) = 404
  /\ status (reply_of
               (two_sources
                  (Responded 200 (Ok (calendar_document "2024" [bahrain])))
                  internal_server_error)
               (handle 2026 Calendar 2026 "2024")) = 200.
Proof.
  split; [|split].
  - apply (calendar_status_classified 2026 2026 "2024" _ 200 empty_document);
      reflexivity.
  - apply (calendar_status_classified 2026 2026 "2024" _ 200
             (VObj [ ("MRData", VObj []) ])); reflexivity.
  - apply (calendar_status_classified 2026 2026 "2024" _ 200
             (calendar_document "2024" [bahrain])); reflexivity.
Defined.

Lemma drivers_of_1950 :
  let upstream :=
    two_sources (Responded 200 (Ok (drivers_document "1950" [fangio; hamilton])))
      internal_server_error in
  exists st data items shaped,
    upstream (mandatory_url Drivers "1950") = Responded st (Ok data)
    /\ container Drivers data = Ok (VArr items)
    /\ field (body (reply_of upstream (handle 2026 Drivers 2026 "1950"))) "drivers"
       = VArr shaped
    /\ field (body (reply_of upstream (handle 2026 Drivers 2026 "1950")))
         "totalDrivers" = VNum (Z.of_nat (List.length shaped))
    /\ List.length shaped = List.length items
    /\ Forall2 (fun item s => shape_driver item = Ok s) items shaped
    /\ field (body (reply_of upstream (handle 2026 Drivers 2026 "1950"))) "season"
       = field (field (field data "MRData") "DriverTable") "season".
Proof.
  intro upstream.
  apply (list_count_and_order 2026 2026 Drivers "1950" upstream);
    [now left|reflexivity].
Defined.

Lemma drivers_classes :
  status (reply_of
            (two_sources (Responded 200 (Ok empty_document)) internal_server_error)
            (handle 2026 Drivers 2026 "2024")) = 500
  /\ status (reply_of
               (two_sources (Responded 200 (Ok (drivers_document "2024" [hamilton])))
                  internal_server_error)
               (handle 2026 Drivers 2026 "2024")) = 200.
Proof.
  split.
  - apply (list_status_classified 2026 2026 Drivers "2024" _ 200 empty_document);
      try reflexivity. now left.
  - apply (list_status_classified 2026 2026 Drivers "2024" _ 200
             (drivers_document "2024" [hamilton]));
      try reflexivity. now left.
Defined.

Lemma defaults_of_fangio :
  (forall k, In k copied_driver_fields -> field fangio_shaped k = field fangio k)
  /\ (forall k, In k defaulted_driver_fields ->
        field fangio_shaped k = (if truthy (field fangio k) then field fangio k else VNull)
        /\ has_key (on_wire fangio_shaped) k = true).
Proof.
  apply (driver_defaults fangio fangio_shaped). reflexivity.
Defined.

Lemma url_of_a_race_without_one :
  has_key (race_record bahrain_false_practice) "url" = true
  /\ has_key (on_wire (race_record bahrain_false_practice)) "url" = false.
Proof.
  apply (missing_field_is_omitted bahrain_false_practice
           (race_record bahrain_false_practice) "url");
    [reflexivity|cbn; tauto].
Defined.

Lemma standings_classes :
  status (reply_of
            (two_sources
               (Responded 200 (Ok (standings_document [standings_without_entries])))
               internal_server_error)
            (handle 2026 DriverStandings 2026 "2022")) = 500
  /\ status (reply_of
               (two_sources
                  (Responded 200
                     (Ok (standings_document [standings_2022; standings_other])))
                  internal_server_error)
               (handle 2026 DriverStandings 2026 "2022")) = 200.
Proof.
  split.
  - apply (standings_status_classified 2026 2026 DriverStandings "2022" _ 200
             (standings_document [standings_without_entries])
             standings_without_entries []); try reflexivity. now left.
  - apply (standings_status_classified 2026 2026 DriverStandings "2022" _ 200
             (standings_document [standings_2022; standings_other])
             standings_2022 [standings_other]); try reflexivity. now left.
Defined.

Lemma fields_of_bahrain :
  (forall k, In k copied_race_fields ->
     field (race_record bahrain) k = field bahrain k)
  /\ (forall k, In k circuit_fields ->
        field (field (race_record bahrain) "circuit") k
        = field (field bahrain "Circuit") k)
  /\ (forall k, In k location_fields ->
        field (field (field (race_record bahrain) "circuit") "location") k
        = field (field (field bahrain "Circuit") "Location") k).
Proof.
  apply (race_fields_copied bahrain (race_record bahrain)). reflexivity.
Defined.

(** ** The standings routes in full *)

Lemma standings_body_shaped (r : route) (first : value) (entries : list value) :
  r = DriverStandings \/ r = ConstructorStandings ->
  field first (standings_key r) = VArr entries ->
  forallb (entry_ok r) entries = true ->
  exists shaped,
    standings_body (standings_key r) (standings_shape r) first
    = Ok (VObj [ ("season", field first "season");
                 ("round", field first "round");
                 ("standings", VArr shaped) ])
    /\ Forall2 (fun entry s => standings_shape r entry = Ok s) entries shaped.
Proof.
  intros Hr Hentries Hall.
  assert (Hkey : (standings_key r =? "length")%string = false)
    by (destruct Hr as [-> | ->]; reflexivity).
  destruct (field_defined_object first (standings_key r)) as [fields Hf];
    [rewrite Hentries; discriminate|].
  assert (Hn : nullish first = false) by now rewrite Hf.
  apply (mapM_defined (standings_shape r) _ entries
           (fun s => standings_shape_defined r s Hr)) in Hall as [shaped Hm].
  exists shaped. split; [|now apply mapM_Forall2].
  unfold standings_body.
  rewrite (get_field first "season" Hn eq_refl). cbn [bind].
  rewrite (get_field first "round" Hn eq_refl). cbn [bind].
  rewrite (get_field first _ Hn Hkey). cbn [bind].
  rewrite Hentries. cbn [js_map]. now rewrite Hm.
Qed.

(** C8, as the code has it. In both standings routes, for a document
    other than [null]: when [StandingsLists] is missing, [null] or an
    empty array the answer is 404; when it is an array with a first
    element whose entries can be shaped, the answer is 200 with the
    [season] and [round] of that first element and, as [standings], the
    shaping of its entries in their order, whatever the other elements
    of [StandingsLists] are. *)
Theorem standings_use_first_list (startYear now : Z) (r : route) (year : string)
  (upstream : string -> fetch_result) (st : Z) (data : value) :
  r = DriverStandings \/ r = ConstructorStandings ->
  validateYear startYear year = Valid ->
  upstream (mandatory_url r year) = Responded st (Ok data) ->
  ok st = true ->
  nullish data = false ->
  (nullish (expected_at r data) = true \/ expected_at r data = VArr [] ->
   status (reply_of upstream (handle startYear r now year)) = 404)
  /\ (forall first rest entries,
        expected_at r data = VArr (first :: rest) ->
        field first (standings_key r) = VArr entries ->
        forallb (entry_ok r) entries = true ->
        exists shaped,
          reply_of upstream (handle startYear r now year)
          = Reply 200
              (VObj [ ("season", field first "season");
                      ("round", field first "round");
                      ("standings", VArr shaped) ])
          /\ Forall2 (fun entry s => standings_shape r entry = Ok s) entries shaped).
Proof.
  intros Hr Hvalid Hup Hok Hd.
  rewrite (standings_route_answered _ _ _ _ _ st data Hr Hvalid Hup Hok).
  pose proof (standings_lists_fields r data Hr Hd) as Hl.
  split.
  - intro H. now rewrite (standings_answer_no_data _ _ _ _ Hl H).
  - intros first rest entries Hlists Hentries Hall. rewrite Hlists in Hl.
    rewrite (standings_answer_first _ _ _ _ _ Hl).
    destruct (standings_body_shaped r first entries Hr Hentries Hall)
      as (shaped & -> & HF).
    exists shaped. split; [reflexivity|exact HF].
Qed.

(** C8 at the document [null]: there is no [StandingsLists] in it, and
    the answer is 500, not 404. *)
Lemma null_standings_document_is_500 :
  let upstream := two_sources (Responded 200 (Ok VNull)) internal_server_error in
  is_json VNull = true
  /\ validateYear 2026 "2022" = Valid
  /\ expected_at DriverStandings VNull = VUndef
  /\ reply_of upstream (handle 2026 DriverStandings 2026 "2022")
     = Reply 500
         (VObj [ ("error", VStr "Erro interno do servidor");
                 ("message",
                   VStr "Cannot read properties of null (reading 'MRData')") ])
  /\ status (reply_of upstream (handle 2026 DriverStandings 2026 "2022")) <> 404.
Proof. repeat split. discriminate. Qed.

Lemma standings_samples :
  status (reply_of
            (two_sources (Responded 200 (Ok (standings_document [])))
               internal_server_error)
            (handle 2026 DriverStandings 2026 "2022")) = 404
  /\ reply_of
       (two_sources
          (Responded 200 (Ok (standings_document [standings_2022; standings_other])))
          internal_server_error)
       (handle 2026 DriverStandings 2026 "2022")
     = Reply 200
         (VObj [ ("season", VStr "2022");
                 ("round", VStr "22");
                 ("standings", VArr [verstappen_shaped]) ]).
Proof.
  split.
  - apply (standings_use_first_list 2026 2026 DriverStandings "2022" _ 200
             (standings_document [])); try reflexivity; auto.
  - destruct (standings_use_first_list 2026 2026 DriverStandings "2022"
                (two_sources
                   (Responded 200
                      (Ok (standings_document [standings_2022; standings_other])))
                   internal_server_error)
                200 (standings_document [standings_2022; standings_other])
                (or_introl eq_refl) eq_refl eq_refl eq_refl eq_refl)
      as [_ Hfirst].
    destruct (Hfirst standings_2022 [standings_other] [verstappen_first]
                eq_refl eq_refl eq_refl) as (shaped & Hreply & Hall).
    inversion Hall as [|e1 s1 l1 t1 H1 Hall1]; subst.
    inversion Hall1; subst.
    cbv in H1. injection H1 as <-. exact Hreply.
Defined.
